(** * pyHS100: the query helper, the device capability model and discovery

    A shallow embedding of [smartdevice.py], [smartplug.py], [smartbulb.py]
    and [discover.py].  Values decoded from the devices' JSON are modelled
    by the type [json]; Python's dynamically typed operations on them
    ([in], subscripting, [del], truth value, [int(..)], ...) are functions
    into an error type carrying the exception that Python would raise.
    Code that talks to a device runs in a state-and-error monad over a
    [World] that scripts the outcome of the successive protocol exchanges
    and records every request put on the wire. *)

From Stdlib Require Import ZArith String Ascii List Bool Lia.
From Stdlib Require Import Floats.SpecFloat.
From stdpp Require Import gmap strings list fin_maps.

Set Warnings "-register-all".
Local Open Scope Z_scope.

(** ** Python values and exceptions *)

Module Py.

(** The values [json.loads] produces: [None], [bool], [int]/[long],
    [float] (an IEEE double), [unicode], [list] and [dict]. *)
Inductive json : Type :=
| JNull
| JBool (b : bool)
| JInt (z : Z)
| JFloat (f : spec_float)
| JStr (s : string)
| JArr (l : list json)
| JObj (m : gmap string json).

(** The three places that raise [SmartDeviceException] in
    [_query_helper], with the values formatted into the message. *)
Inductive device_error : Type :=
| CommunicationError
| NoRequiredInResponse (target : string) (response : json)
| ErrorOn (target cmd : string) (result : json).

Inductive exn : Type :=
| SmartDeviceException (e : device_error)
| KeyError (key : string)
| TypeError
| AttributeError
| ValueError
| OverflowError
| ZeroDivisionError
| UnboundLocalError (name : string)
| NotImplementedError
| socket_error
| socket_timeout.

Inductive result (A : Type) : Type :=
| Ok (a : A)
| Raise (e : exn).
Arguments Ok {A} a.
Arguments Raise {A} e.

Definition rbind {A B} (r : result A) (k : A -> result B) : result B :=
  match r with
  | Ok a => k a
  | Raise e => Raise e
  end.

Notation "'let?' x ':=' c 'in' k" := (rbind c (fun x => k))
  (at level 10, x name, c at level 100, k at level 200).

(** [p in s] for two strings: [p] occurs in [s] as a substring. *)
Fixpoint startswith (s p : string) : bool :=
  match p, s with
  | EmptyString, _ => true
  | String a p', String b s' => Ascii.eqb a b && startswith s' p'
  | String _ _, EmptyString => false
  end.

Fixpoint str_contains (s p : string) : bool :=
  startswith s p ||
  match s with
  | EmptyString => false
  | String _ s' => str_contains s' p
  end.

Definition is_str (k : string) (v : json) : bool :=
  match v with
  | JStr s => String.eqb s k
  | _ => false
  end.

(** [k in c] for a unicode key [k]: key membership on a dict, element
    membership on a list, substring on a string; anything else is not
    iterable. *)
Definition contains (c : json) (k : string) : result bool :=
  match c with
  | JObj m => Ok (bool_decide (is_Some (m !! k)))
  | JArr l => Ok (existsb (is_str k) l)
  | JStr s => Ok (str_contains s k)
  | _ => Raise TypeError
  end.

(** [c[k]] for a unicode key [k]. *)
Definition getitem (c : json) (k : string) : result json :=
  match c with
  | JObj m =>
      match m !! k with
      | Some v => Ok v
      | None => Raise (KeyError k)
      end
  | _ => Raise TypeError
  end.

(** [c[k1][k2]]. *)
Definition getitem2 (c : json) (k1 k2 : string) : result json :=
  let? inner := getitem c k1 in getitem inner k2.

(** [del c[k]]; the dict is updated in place, here the updated dict is
    returned. *)
Definition delitem (c : json) (k : string) : result json :=
  match c with
  | JObj m =>
      match m !! k with
      | Some _ => Ok (JObj (delete k m))
      | None => Raise (KeyError k)
      end
  | _ => Raise TypeError
  end.

Definition float_is_zero (f : spec_float) : bool :=
  match f with
  | S754_zero _ => true
  | _ => false
  end.

(** [v != 0]. *)
Definition ne_zero (v : json) : bool :=
  match v with
  | JInt z => negb (z =? 0)
  | JBool b => b
  | JFloat f => negb (float_is_zero f)
  | _ => true
  end.

(** [bool(v)], the truth value tested by [if v] and [not v]. *)
Definition truth (v : json) : bool :=
  match v with
  | JNull => false
  | JBool b => b
  | JInt z => negb (z =? 0)
  | JFloat f => negb (float_is_zero f)
  | JStr s => negb (String.eqb s EmptyString)
  | JArr l => negb (bool_decide (l = []))
  | JObj m => negb (bool_decide (m = ∅))
  end.

(** *** Numbers

    A Python [float] is an IEEE double: precision 53, exponents up to
    1024.  [smartbulb.py] imports [division] from [__future__], so [/] is
    true division also on integers. *)
Definition prec : Z := 53.
Definition emax : Z := 1024.

(** [float(z)]: the nearest double, [OverflowError] beyond the range. *)
Definition float_of_int (z : Z) : result spec_float :=
  match binary_normalize prec emax z 0 false with
  | S754_infinity _ => Raise OverflowError
  | f => Ok f
  end.

(** [int(f)] truncates toward zero. *)
Definition int_of_float (f : spec_float) : result Z :=
  match f with
  | S754_zero _ => Ok 0
  | S754_nan => Raise ValueError
  | S754_infinity _ => Raise OverflowError
  | S754_finite s m e =>
      Ok (cond_Zopp s
            (if 0 <=? e then Z.shiftl (Zpos m) e
             else Z.shiftr (Zpos m) (- e)))
  end.

Definition int_of_bool (b : bool) : Z := if b then 1 else 0.

(** An integer as a binary number with exponent 0: whatever its size, no
    digit is lost. *)
Definition exact (n : Z) : spec_float :=
  match n with
  | Z0 => S754_zero false
  | Zpos p => S754_finite false p 0
  | Zneg p => S754_finite true p 0
  end.

(** [n / d] for two integers under true division: the exact quotient is
    rounded once, to the nearest double; [OverflowError] when it is too
    large for a double. *)
Definition int_truediv (n d : Z) : result spec_float :=
  if d =? 0 then Raise ZeroDivisionError
  else
    match SFdiv prec emax (exact n) (exact d) with
    | S754_infinity _ => Raise OverflowError
    | q => Ok q
    end.

(** [v * k / d] for integer constants [k] and [d]: an integer product is
    exact and is divided as an integer; a float is multiplied and divided
    as a double.  A string or list times [k] is a repetition, which [/]
    then rejects. *)
Definition mul_truediv (v : json) (k d : Z) : result spec_float :=
  match v with
  | JInt z => int_truediv (z * k) d
  | JBool b => int_truediv (int_of_bool b * k) d
  | JFloat f =>
      let? fk := float_of_int k in
      let? q := float_of_int d in
      Ok (SFdiv prec emax (SFmul prec emax f fk) q)
  | _ => Raise TypeError
  end.

Definition is_space (c : ascii) : bool :=
  let n := nat_of_ascii c in
  ((9 <=? n) && (n <=? 13))%nat || (n =? 32)%nat.

Fixpoint lstrip (s : string) : string :=
  match s with
  | String c s' => if is_space c then lstrip s' else s
  | EmptyString => EmptyString
  end.

Definition digit_of (c : ascii) : option Z :=
  let n := nat_of_ascii c in
  if ((48 <=? n) && (n <=? 57))%nat then Some (Z.of_nat n - 48) else None.

(** The digits of a literal, then only white space. *)
Fixpoint digits (acc : Z) (seen : bool) (s : string) : option Z :=
  match s with
  | EmptyString => if seen then Some acc else None
  | String c s' =>
      match digit_of c with
      | Some d => digits (10 * acc + d) true s'
      | None =>
          if seen && String.eqb (lstrip s) EmptyString then Some acc
          else None
      end
  end.

(** [int(s)] for a string: an optionally signed decimal literal, white
    space around it allowed. *)
Definition int_of_string (s : string) : result Z :=
  let parsed :=
    match lstrip s with
    | String "-" s' => option_map Z.opp (digits 0 false s')
    | String "+" s' => digits 0 false s'
    | s' => digits 0 false s'
    end in
  match parsed with
  | Some z => Ok z
  | None => Raise ValueError
  end.

(** [int(v)]. *)
Definition int (v : json) : result Z :=
  match v with
  | JInt z => Ok z
  | JBool b => Ok (int_of_bool b)
  | JFloat f => int_of_float f
  | JStr s => int_of_string s
  | _ => Raise TypeError
  end.

(** *** Dictionaries built by the program

    A dict whose keys are arbitrary hashable values, as the list of its
    items.  Keys are compared with Python's [==]: [1], [1.0] and [True]
    are the same key, a NaN equals nothing. *)
Definition pydict : Type := list (json * json).

(** The integer a float is exactly equal to, if any. *)
Definition float_as_int (f : spec_float) : option Z :=
  match f with
  | S754_zero _ => Some 0
  | S754_finite s m e =>
      if 0 <=? e then Some (cond_Zopp s (Z.shiftl (Zpos m) e))
      else if Z.land (Zpos m) (Z.ones (- e)) =? 0
           then Some (cond_Zopp s (Z.shiftr (Zpos m) (- e)))
           else None
  | _ => None
  end.

Definition key_eqb (a b : json) : bool :=
  match a, b with
  | JNull, JNull => true
  | JStr s, JStr t => String.eqb s t
  | JInt x, JInt y => x =? y
  | JInt x, JBool y | JBool y, JInt x => x =? int_of_bool y
  | JBool x, JBool y => Bool.eqb x y
  | JFloat f, JFloat g => SFeqb f g
  | JFloat f, JInt x | JInt x, JFloat f =>
      match float_as_int f with Some y => x =? y | None => false end
  | JFloat f, JBool x | JBool x, JFloat f =>
      match float_as_int f with
      | Some y => int_of_bool x =? y
      | None => false
      end
  | _, _ => false
  end.

(** Lists and dicts are unhashable. *)
Definition hashable (k : json) : result json :=
  match k with
  | JArr _ | JObj _ => Raise TypeError
  | _ => Ok k
  end.

(** [d[k] = v] on a dict given by its items: an equal key keeps its place
    (and its key object) and takes the new value. *)
Fixpoint dict_set (d : pydict) (k v : json) : pydict :=
  match d with
  | [] => [(k, v)]
  | (k', v') :: d' =>
      if key_eqb k' k then (k', v) :: d' else (k', v') :: dict_set d' k v
  end.

Fixpoint dict_get (d : pydict) (k : json) : option json :=
  match d with
  | [] => None
  | (k', v') :: d' => if key_eqb k' k then Some v' else dict_get d' k
  end.

(** [dict(pairs)]: the pairs are inserted in order. *)
Fixpoint dict_of_pairs (d : pydict) (pairs : list (json * json))
    : result pydict :=
  match pairs with
  | [] => Ok d
  | (k, v) :: rest =>
      let? k := hashable k in
      dict_of_pairs (dict_set d k v) rest
  end.

(** [for x in v]: the elements of a list, the keys of a dict, the
    characters of a string. *)
Definition iter (v : json) : result (list json) :=
  match v with
  | JArr l => Ok l
  | JObj m => Ok (JStr <$> (map_to_list m).*1)
  | JStr s =>
      Ok ((fun c => JStr (String c EmptyString)) <$> list_ascii_of_string s)
  | _ => Raise TypeError
  end.

(** [s.split(sep)] for a one-character separator. *)
Fixpoint split_on (sep : ascii) (s : string) : list string :=
  match s with
  | EmptyString => [EmptyString]
  | String c s' =>
      if Ascii.eqb c sep then EmptyString :: split_on sep s'
      else
        match split_on sep s' with
        | h :: t => String c h :: t
        | [] => [String c EmptyString]
        end
  end.

(** [v.split(sep)]: only strings have the method. *)
Definition split (v : json) (sep : ascii) : result (list string) :=
  match v with
  | JStr s => Ok (split_on sep s)
  | _ => Raise AttributeError
  end.

Definition lower_ascii (c : ascii) : ascii :=
  let n := nat_of_ascii c in
  if ((65 <=? n) && (n <=? 90))%nat then ascii_of_nat (n + 32) else c.

Fixpoint lower_string (s : string) : string :=
  match s with
  | EmptyString => EmptyString
  | String c s' => String (lower_ascii c) (lower_string s')
  end.

(** [v.lower()]: only strings have the method.  Letters beyond ASCII
    never lower to a letter of the markers looked for, and are left as
    they are. *)
Definition lower (v : json) : result string :=
  match v with
  | JStr s => Ok (lower_string s)
  | _ => Raise AttributeError
  end.

End Py.
Import Py.

(** ** The socket library *)

Module Socket.

Record pton_state : Type := mkPton {
  saw_digit : bool;
  octets : Z;
  filled : list Z;
  cur : Z
}.

(** One character of [inet_pton] for [AF_INET], as the C library scans a
    dotted quad: at most four decimal fields, each at most 255, no leading
    zero, no empty field. *)
Definition pton_step (st : pton_state) (ch : ascii) : option pton_state :=
  match digit_of ch with
  | Some d =>
      let new := cur st * 10 + d in
      if saw_digit st && (cur st =? 0) then None
      else if 255 <? new then None
      else if saw_digit st then
        Some (mkPton true (octets st) (filled st) new)
      else if 4 <? octets st + 1 then None
      else Some (mkPton true (octets st + 1) (filled st) new)
  | None =>
      if Ascii.eqb ch "." && saw_digit st then
        if octets st =? 4 then None
        else Some (mkPton false (octets st) (filled st ++ [cur st]) 0)
      else None
  end.

Fixpoint pton_scan (st : pton_state) (s : string) : option pton_state :=
  match s with
  | EmptyString => Some st
  | String ch s' =>
      match pton_step st ch with
      | Some st' => pton_scan st' s'
      | None => None
      end
  end.

(** [socket.inet_pton(socket.AF_INET, s)]: the four bytes of the address,
    [socket.error] for anything that is not a dotted quad. *)
Definition inet_pton (s : string) : result (list Z) :=
  match pton_scan (mkPton false 0 [] 0) s with
  | Some st =>
      if octets st <? 4 then Raise socket_error
      else Ok (filled st ++ [cur st])
  | None => Raise socket_error
  end.

End Socket.

(** ** State and exceptions *)

(** A computation over a state [S] that returns or raises. *)
Definition St (S A : Type) : Type := S -> result A * S.

Definition ret {S A} (a : A) : St S A := fun s => (Ok a, s).
Definition raise {S A} (e : exn) : St S A := fun s => (Raise e, s).
Definition lift {S A} (r : result A) : St S A := fun s => (r, s).
Definition bind {S A B} (c : St S A) (k : A -> St S B) : St S B :=
  fun s =>
    match c s with
    | (Ok a, s') => k a s'
    | (Raise e, s') => (Raise e, s')
    end.

Notation "'let*' x ':=' c 'in' k" := (bind c (fun x => k))
  (at level 10, x name, c at level 100, k at level 200).

(** [try: c except Exception: raise e]. *)
Definition reraise_as {S A} (e : exn) (c : St S A) : St S A :=
  fun s =>
    match c s with
    | (Ok a, s') => (Ok a, s')
    | (Raise _, s') => (Raise e, s')
    end.

(** ** The network *)

(** One request/response exchange is one call of [protocol.query].  The
    world scripts what each successive exchange yields (an exception of the
    transport, or the decoded response), records the requests sent, and
    holds the year and month of the clock. *)
Record World : Type := mkWorld {
  script : list (exn + json);
  sent : list (string * json);
  today : Z * Z
}.

Definition M (A : Type) : Type := St World A.

(** The request [{target: {cmd: arg}}]. *)
Definition request (target cmd : string) (arg : json) : json :=
  JObj {[ target := JObj {[ cmd := arg ]} ]}.

(** Modelled from the spec: [TPLinkSmartHomeProtocol.query] ([protocol.py]
    is missing): one request is sent to [host], one response is read and
    parsed, and any failure of the transport is an exception.  The outcome
    is the next entry of the script; a device that never answers times
    out. *)
Definition protocol_query (host : string) (req : json) : M json :=
  fun w =>
    let w' := {| script := tail (script w);
                 sent := sent w ++ [(host, req)];
                 today := today w |} in
    match script w with
    | inr response :: _ => (Ok response, w')
    | inl e :: _ => (Raise e, w')
    | [] => (Raise socket_timeout, w')
    end.

Definition now : M (Z * Z) := fun w => (Ok (today w), w).

(** ** smartdevice.py *)

Inductive device_class : Type := BaseDevice | Plug | Bulb.

Record Device : Type := mkDevice {
  cls : device_class;
  ip_address : string;
  emeter_type : string;
  emeter_units : bool
}.

(** [self.emeter_type = ty; self.emeter_units = units]. *)
Definition set_emeter (self : Device) (ty : string) (units : bool) : Device :=
  {| cls := cls self;
     ip_address := ip_address self;
     emeter_type := ty;
     emeter_units := units |}.

Module SmartDevice.

Definition FEATURE_ENERGY_METER : string := "ENE".

(** [__init__] runs on an object of the class being constructed. *)
Definition __init__ (cls : device_class) (ip_address : string)
    : result Device :=
  let? _ := Socket.inet_pton ip_address in
  Ok {| cls := cls;
        ip_address := ip_address;
        emeter_type := "emeter";
        emeter_units := false |}.

(** [arg] left out and [arg] given as [None] are the same to the test
    [arg is None]. *)
Definition _query_helper (self : Device) (target cmd : string)
    (arg : option json) : M json :=
  let arg :=
    match arg with
    | None | Some JNull => JObj ∅
    | Some a => a
    end in
  let* response :=
    reraise_as (SmartDeviceException CommunicationError)
      (protocol_query (ip_address self) (request target cmd arg)) in
  let* present := lift (contains response target) in
  if negb present then
    raise (SmartDeviceException (NoRequiredInResponse target response))
  else
    let* result := lift (getitem response target) in
    let* has_err := lift (contains result "err_code") in
    let* failed :=
      (if has_err then
         let* code := lift (getitem result "err_code") in ret (ne_zero code)
       else ret false) in
    if failed then
      raise (SmartDeviceException (ErrorOn target cmd result))
    else
      let* result := lift (getitem result cmd) in
      let* result := lift (delitem result "err_code") in
      ret result.

Definition get_sysinfo (self : Device) : M json :=
  _query_helper self "system" "get_sysinfo" None.

(** [sys_info] wraps the result in a [defaultdict] whose missing keys read
    as [None]; [_query_helper] only ever returns a dict. *)
Definition sys_info (self : Device) : M (gmap string json) :=
  let* info := get_sysinfo self in
  match info with
  | JObj m => ret m
  | _ => raise TypeError
  end.

Definition sys_info_get (info : gmap string json) (k : string) : json :=
  default JNull (info !! k).

End SmartDevice.

(** ** smartplug.py *)

Module SmartPlug.

Definition __init__ (ip_address : string) : result Device :=
  let? self := SmartDevice.__init__ Plug ip_address in
  Ok (set_emeter self "emeter" false).

Definition has_emeter (self : Device) : M bool :=
  let* info := SmartDevice.sys_info self in
  let* features :=
    lift (split (SmartDevice.sys_info_get info "feature") ":") in
  ret (existsb (String.eqb SmartDevice.FEATURE_ENERGY_METER) features).

Definition is_on (self : Device) : M bool :=
  let* info := SmartDevice.sys_info self in
  ret (truth (SmartDevice.sys_info_get info "relay_state")).

End SmartPlug.

(** ** smartbulb.py *)

Module SmartBulb.

Definition BULB_STATE_ON : string := "ON".
Definition BULB_STATE_OFF : string := "OFF".

Definition __init__ (ip_address : string) : result Device :=
  let? self := SmartDevice.__init__ Bulb ip_address in
  Ok (set_emeter self "smartlife.iot.common.emeter" true).

Definition is_color (self : Device) : M bool :=
  let* info := SmartDevice.sys_info self in
  ret (truth (SmartDevice.sys_info_get info "is_color")).

Definition is_dimmable (self : Device) : M bool :=
  let* info := SmartDevice.sys_info self in
  ret (truth (SmartDevice.sys_info_get info "is_dimmable")).

Definition is_variable_color_temp (self : Device) : M bool :=
  let* info := SmartDevice.sys_info self in
  ret (truth (SmartDevice.sys_info_get info "is_variable_color_temp")).

Definition lightingservice : string :=
  "smartlife.iot.smartbulb.lightingservice".

Definition get_light_state (self : Device) : M json :=
  SmartDevice._query_helper self lightingservice "get_light_state" None.

Definition set_light_state (self : Device) (state : json) : M json :=
  SmartDevice._query_helper self lightingservice "transition_light_state"
    (Some state).

(** The [state] property. *)
Definition state (self : Device) : M string :=
  let* light_state := get_light_state self in
  let* on_off := lift (getitem light_state "on_off") in
  if truth on_off then ret BULB_STATE_ON else ret BULB_STATE_OFF.

Definition is_on (self : Device) : M bool :=
  let* st := state self in
  ret (String.eqb st BULB_STATE_ON).

(** [int(v * k / d)]. *)
Definition scaled (v : json) (k d : Z) : result Z :=
  let? q := mul_truediv v k d in int_of_float q.

(** The [hsv] property. *)
Definition hsv (self : Device) : M (option (json * json * Z)) :=
  let* color := is_color self in
  if negb color then ret None
  else
    let* light_state := get_light_state self in
    let* on := is_on self in
    if negb on then
      let* hue := lift (getitem2 light_state "dft_on_state" "hue") in
      let* saturation :=
        lift (getitem2 light_state "dft_on_state" "saturation") in
      let* b := lift (getitem2 light_state "dft_on_state" "brightness") in
      let* value := lift (scaled b 255 100) in
      ret (Some (hue, saturation, value))
    else
      let* hue := lift (getitem light_state "hue") in
      let* saturation := lift (getitem light_state "saturation") in
      let* b := lift (getitem light_state "brightness") in
      let* value := lift (scaled b 255 100) in
      ret (Some (hue, saturation, value)).

(** The setter of [hsv]; [state] is the tuple given by the caller. *)
Definition set_hsv (self : Device) (state : json * json * json) : M unit :=
  let* color := is_color self in
  if negb color then ret tt
  else
    let '(state0, state1, state2) := state in
    let* brightness := lift (scaled state2 100 255) in
    let light_state :=
      JObj (<["hue" := state0]>
           (<["saturation" := state1]>
           (<["brightness" := JInt brightness]>
           (<["color_temp" := JInt 0]> ∅)))) in
    let* _ := set_light_state self light_state in
    ret tt.

(** The [color_temp] property. *)
Definition color_temp (self : Device) : M (option Z) :=
  let* variable := is_variable_color_temp self in
  if negb variable then ret None
  else
    let* light_state := get_light_state self in
    let* on := is_on self in
    if negb on then
      let* t := lift (getitem2 light_state "dft_on_state" "color_temp") in
      let* t := lift (int t) in
      ret (Some t)
    else
      let* t := lift (getitem light_state "color_temp") in
      let* t := lift (int t) in
      ret (Some t).

Definition set_color_temp (self : Device) (temp : json) : M unit :=
  let* variable := is_variable_color_temp self in
  if negb variable then ret tt
  else
    let* _ := set_light_state self (JObj {[ "color_temp" := temp ]}) in
    ret tt.

(** The [brightness] property. *)
Definition brightness (self : Device) : M (option Z) :=
  let* dimmable := is_dimmable self in
  if negb dimmable then ret None
  else
    let* light_state := get_light_state self in
    let* on := is_on self in
    if negb on then
      let* b := lift (getitem2 light_state "dft_on_state" "brightness") in
      let* b := lift (int b) in
      ret (Some b)
    else
      let* b := lift (getitem light_state "brightness") in
      let* b := lift (int b) in
      ret (Some b).

Definition set_brightness (self : Device) (brightness : json) : M unit :=
  let* dimmable := is_dimmable self in
  if negb dimmable then ret tt
  else
    let* _ := set_light_state self (JObj {[ "brightness" := brightness ]}) in
    ret tt.

Definition has_emeter (self : Device) : M bool := ret true.

End SmartBulb.

(** ** The metering operations of smartdevice.py

    [has_emeter] raises [NotImplementedError] in [SmartDevice] and is
    overridden by both device classes; the metering methods of
    [SmartDevice] reach it through [self]. *)

Definition has_emeter (self : Device) : M bool :=
  match cls self with
  | BaseDevice => raise NotImplementedError
  | Plug => SmartPlug.has_emeter self
  | Bulb => SmartBulb.has_emeter self
  end.

Module Emeter.

Definition get_emeter_realtime (self : Device) : M (option json) :=
  let* has := has_emeter self in
  if negb has then ret None
  else
    let* r :=
      SmartDevice._query_helper self (emeter_type self) "get_realtime" None in
    ret (Some r).

(** The field of an entry that holds the energy. *)
Definition energy_key (self : Device) : string :=
  if emeter_units self then "energy_wh" else "energy".

(** [dict((entry[period], entry[key]) for entry in entries)]. *)
Fixpoint collect (period key : string) (entries : list json) (d : pydict)
    : result pydict :=
  match entries with
  | [] => Ok d
  | entry :: rest =>
      let? k := getitem entry period in
      let? v := getitem entry key in
      let? k := hashable k in
      collect period key rest (dict_set d k v)
  end.

Definition get_emeter_daily (self : Device) (year month : option Z)
    : M (option pydict) :=
  let* has := has_emeter self in
  if negb has then ret None
  else
    let* year :=
      match year with
      | Some y => ret y
      | None => let* t := now in ret (fst t)
      end in
    let* month :=
      match month with
      | Some m => ret m
      | None => let* t := now in ret (snd t)
      end in
    let* response :=
      SmartDevice._query_helper self (emeter_type self) "get_daystat"
        (Some (JObj (<["month" := JInt month]>
                    (<["year" := JInt year]> ∅)))) in
    let key := energy_key self in
    let* day_list := lift (getitem response "day_list") in
    let* entries := lift (iter day_list) in
    let* d := lift (collect "day" key entries []) in
    ret (Some d).

Definition get_emeter_monthly (self : Device) (year : option Z)
    : M (option pydict) :=
  let* has := has_emeter self in
  if negb has then ret None
  else
    let* year :=
      match year with
      | Some y => ret y
      | None => let* t := now in ret (fst t)
      end in
    let* response :=
      SmartDevice._query_helper self (emeter_type self) "get_monthstat"
        (Some (JObj {[ "year" := JInt year ]})) in
    let key := energy_key self in
    let* month_list := lift (getitem response "month_list") in
    let* entries := lift (iter month_list) in
    let* d := lift (collect "month" key entries []) in
    ret (Some d).

Definition erase_emeter_stats (self : Device) : M bool :=
  let* has := has_emeter self in
  if negb has then ret false
  else
    let* _ :=
      SmartDevice._query_helper self (emeter_type self) "erase_emeter_stat"
        None in
    ret true.

End Emeter.

(** ** The wire codec *)

Module Protocol.

(** The part of a protocol object that [discover] uses to send. *)
Record t : Type := mk { encrypt : list Z -> list Z }.

(** Modelled from the spec: the length prefix of a frame ([protocol.py]
    is missing), the four bytes of a big-endian unsigned 32-bit integer. *)
Definition be32 (n : Z) : list Z :=
  [Z.land (Z.shiftr n 24) 255; Z.land (Z.shiftr n 16) 255;
   Z.land (Z.shiftr n 8) 255; Z.land n 255].

(** Modelled from the spec: the obfuscation of the wire codec
    ([protocol.py] is missing): each byte is combined by exclusive-or with
    the previous output byte, the first one with the key. *)
Fixpoint xor_chain (key : Z) (plain : list Z) : list Z :=
  match plain with
  | [] => []
  | c :: rest => let o := Z.lxor key c in o :: xor_chain o rest
  end.

(** Modelled from the spec: [TPLinkSmartHomeProtocol.encrypt]
    ([protocol.py] is missing): the 4-byte big-endian length of the
    plaintext, then the plaintext through the XOR chain started at a fixed
    initial key. *)
Definition wire_encode (key : Z) (plain : list Z) : list Z :=
  be32 (Z.of_nat (length plain)) ++ xor_chain key plain.

Definition TPLinkSmartHomeProtocol (key : Z) : t :=
  {| encrypt := wire_encode key |}.

End Protocol.

(** ** discover.py *)

Module Discover.

(** What [sock.recvfrom] yields: a datagram with the address it came from,
    or an exception of the socket; when the list is exhausted the receive
    times out.  Of the datagram's bytes, the model keeps what
    [json.loads(protocol.decrypt(data))] makes of them: the parsed value,
    or nothing when decoding or parsing raises. *)
Record datagram : Type := mkDatagram {
  parsed : option json;
  addr : string * Z
}.

Inductive recv : Type :=
| Received (d : datagram)
| Failed (e : exn).

(** The records written to the logger. *)
Inductive log_record : Type :=
| DebugSending (target : string) (port : Z)
| DebugWaiting
| ErrorNoTypeField
| ErrorNoSystem
| DebugTimeout
| ErrorException (e : exn).

Definition L (A : Type) : Type := St (list log_record) A.

Definition log (r : log_record) : L unit := fun l => (Ok tt, l ++ [r]).

Definition discovery_query : json :=
  JObj (<["emeter" := JObj {[ "get_realtime" := JNull ]}]>
       (<["system" := JObj {[ "get_sysinfo" := JNull ]}]> ∅)).

Definition target : string := "255.255.255.255".

(** One turn of the [while True] loop after [recvfrom] has returned.
    [type] is a local variable of [discover]: it keeps the value of an
    earlier turn, and is unbound before the first assignment. *)
Definition turn (devices : gmap string Device) (type : option json)
    (d : datagram) : L (gmap string Device * option json) :=
  let ip := fst (addr d) in
  let* info :=
    lift (match parsed d with
          | Some j => Ok j
          | None => Raise ValueError
          end) in
  let* has_system := lift (contains info "system") in
  let* found :=
    (if has_system then
       let* system := lift (getitem info "system") in
       lift (contains system "get_sysinfo")
     else ret false) in
  let* type :=
    (if found then
       let* sysinfo := lift (getitem2 info "system" "get_sysinfo") in
       let* has_type := lift (contains sysinfo "type") in
       if has_type then
         let* t := lift (getitem sysinfo "type") in ret (Some t)
       else
         let* has_mic_type := lift (contains sysinfo "mic_type") in
         if has_mic_type then
           let* t := lift (getitem sysinfo "mic_type") in ret (Some t)
         else
           let* _ := log ErrorNoTypeField in
           ret (Some (JStr "UNKNOWN"))
     else
       let* _ := log ErrorNoSystem in
       ret type) in
  let* t :=
    lift (match type with
          | Some t => Ok t
          | None => Raise (UnboundLocalError "type")
          end) in
  let* lowered := lift (lower t) in
  if str_contains lowered "smartplug" then
    let* dev := lift (SmartPlug.__init__ ip) in
    ret (<[ip := dev]> devices, type)
  else
    let* lowered := lift (lower t) in
    if str_contains lowered "smartbulb" then
      let* dev := lift (SmartBulb.__init__ ip) in
      ret (<[ip := dev]> devices, type)
    else ret (devices, type).

(** [except socket.timeout] logs at debug level, [except Exception] at
    error level; both leave the loop. *)
Definition handler (e : exn) : log_record :=
  match e with
  | socket_timeout => DebugTimeout
  | _ => ErrorException e
  end.

(** The [try] block: the loop runs until [recvfrom] or the body raises. *)
Fixpoint receive (events : list recv) (devices : gmap string Device)
    (type : option json) (l : list log_record)
    : gmap string Device * list log_record :=
  match events with
  | [] => (devices, l ++ [handler socket_timeout])
  | Failed e :: _ => (devices, l ++ [handler e])
  | Received d :: rest =>
      match turn devices type d l with
      | (Ok (devices', type'), l') => receive rest devices' type' l'
      | (Raise e, l') => (devices, l' ++ [handler e])
      end
  end.

Record outcome : Type := mkOutcome {
  sendto : list (list Z * (string * Z));
  devices : gmap string Device;
  logged : list log_record
}.

Section discover.

(** [json.dumps], the serialiser of the standard library, and the key of
    the default protocol object. *)
Variable json_dumps : json -> list Z.
Variable initial_key : Z.

(** [discover(protocol, port, timeout)]; [events] is what the socket
    delivers within the timeout. *)
Definition discover (protocol : option Protocol.t) (port : Z)
    (events : list recv) : outcome :=
  let protocol :=
    match protocol with
    | None => Protocol.TPLinkSmartHomeProtocol initial_key
    | Some p => p
    end in
  let req := json_dumps discovery_query in
  let encrypted_req := Protocol.encrypt protocol req in
  let datagram_sent := (drop 4 encrypted_req, (target, port)) in
  let '(devices, l) :=
    receive events ∅ None [DebugSending target port; DebugWaiting] in
  {| sendto := [datagram_sent]; devices := devices; logged := l |}.

End discover.

End Discover.

(** * Properties *)

(** ** The query helper *)

Module QueryFacts.
Import SmartDevice.

(** The world after one exchange with [host]. *)
Definition after (w : World) (host : string) (req : json) : World :=
  {| script := tail (script w);
     sent := sent w ++ [(host, req)];
     today := today w |}.

(** What [_query_helper] makes of a decoded response. *)
Definition validate (target cmd : string) (response : json) : result json :=
  let? present := contains response target in
  if negb present then
    Raise (SmartDeviceException (NoRequiredInResponse target response))
  else
    let? result := getitem response target in
    let? has_err := contains result "err_code" in
    let? failed :=
      (if has_err then
         let? code := getitem result "err_code" in Ok (ne_zero code)
       else Ok false) in
    if failed then Raise (SmartDeviceException (ErrorOn target cmd result))
    else
      let? result := getitem result cmd in
      delitem result "err_code".

Definition arg_or_empty (arg : option json) : json :=
  match arg with
  | None | Some JNull => JObj ∅
  | Some a => a
  end.

Lemma query_helper_run self target cmd arg w :
  _query_helper self target cmd arg w =
  (match script w with
   | inr response :: _ => validate target cmd response
   | _ => Raise (SmartDeviceException CommunicationError)
   end,
   after w (ip_address self) (request target cmd (arg_or_empty arg))).
Proof.
  unfold _query_helper, validate, bind, reraise_as, protocol_query, lift,
    raise, ret, rbind, after, arg_or_empty.
  destruct (script w) as [|[e|response] rest]; try reflexivity.
  destruct (contains response target) as [[|]|]; try reflexivity; simpl.
  destruct (getitem response target) as [result|]; try reflexivity.
  destruct (contains result "err_code") as [[|]|]; try reflexivity; simpl.
  - destruct (getitem result "err_code") as [code|]; try reflexivity.
    destruct (ne_zero code); try reflexivity.
    destruct (getitem result cmd) as [inner|]; try reflexivity.
    destruct (delitem inner "err_code"); reflexivity.
  - destruct (getitem result cmd) as [inner|]; try reflexivity.
    destruct (delitem inner "err_code"); reflexivity.
Qed.

(** A namespace object whose own [err_code] is absent or equal to zero. *)
Definition namespace_ok (ns : gmap string json) : bool :=
  match ns !! "err_code" with
  | Some code => negb (ne_zero code)
  | None => true
  end.

(** The same for whatever value the namespace key holds: only a dict can
    hold an [err_code]. *)
Definition no_namespace_error (nsv : json) : bool :=
  match nsv with
  | JObj ns => namespace_ok ns
  | _ => true
  end.

Lemma validate_namespace target cmd (resp ns : gmap string json) :
  resp !! target = Some (JObj ns) ->
  validate target cmd (JObj resp) =
  if namespace_ok ns then
    match ns !! cmd with
    | None => Raise (KeyError cmd)
    | Some (JObj inner) =>
        match inner !! "err_code" with
        | Some _ => Ok (JObj (delete "err_code" inner))
        | None => Raise (KeyError "err_code")
        end
    | Some _ => Raise TypeError
    end
  else Raise (SmartDeviceException (ErrorOn target cmd (JObj ns))).
Proof.
  intros Hns. unfold validate, namespace_ok, contains, getitem, rbind.
  rewrite Hns. rewrite bool_decide_eq_true_2 by (eexists; reflexivity).
  cbn [negb].
  destruct (ns !! "err_code") as [code|] eqn:Hcode.
  - rewrite bool_decide_eq_true_2 by (eexists; reflexivity).
    destruct (ne_zero code); cbn [negb]; [reflexivity|].
    destruct (ns !! cmd) as [[| | | | | |inner]|]; reflexivity.
  - rewrite bool_decide_eq_false_2 by (intros [? ?]; congruence).
    cbn [negb].
    destruct (ns !! cmd) as [[| | | | | |inner]|]; reflexivity.
Qed.

End QueryFacts.

Import QueryFacts.

(** A nonzero integer [err_code] next to the commands, in the namespace
    object itself, is reported as a device error that carries the
    namespace, the command and the raw result. *)
Lemma query_helper_namespace_err_code self target cmd arg w resp ns n rest :
  script w = inr (JObj resp) :: rest ->
  resp !! target = Some (JObj ns) ->
  ns !! "err_code" = Some (JInt n) ->
  n <> 0 ->
  fst (SmartDevice._query_helper self target cmd arg w) =
  Raise (SmartDeviceException (ErrorOn target cmd (JObj ns))).
Proof.
  intros Hw Hns Hcode Hn. rewrite query_helper_run, Hw. cbn [fst].
  rewrite (validate_namespace _ _ _ _ Hns). unfold namespace_ok.
  rewrite Hcode. cbn [ne_zero].
  destruct (Z.eqb_spec n 0) as [->|_]; [contradiction|reflexivity].
Qed.

(** The [err_code] of the command's own result object is never compared
    with zero: whatever its value, it is deleted and the rest is returned
    as the result of the call. *)
Lemma query_helper_command_err_code self target cmd arg w resp ns inner code
    rest :
  script w = inr (JObj resp) :: rest ->
  resp !! target = Some (JObj ns) ->
  ns !! "err_code" = None ->
  ns !! cmd = Some (JObj inner) ->
  inner !! "err_code" = Some code ->
  fst (SmartDevice._query_helper self target cmd arg w) =
  Ok (JObj (delete "err_code" inner)).
Proof.
  intros Hw Hns Hnone Hcmd Hcode. rewrite query_helper_run, Hw. cbn [fst].
  rewrite (validate_namespace _ _ _ _ Hns). unfold namespace_ok.
  rewrite Hnone, Hcmd, Hcode. reflexivity.
Qed.

(** The devices that [SmartPlug(ip)] and [SmartBulb(ip)] construct. *)
Definition plug_at (ip : string) : Device :=
  {| cls := Plug; ip_address := ip; emeter_type := "emeter";
     emeter_units := false |}.

Definition bulb_at (ip : string) : Device :=
  {| cls := Bulb; ip_address := ip;
     emeter_type := "smartlife.iot.common.emeter"; emeter_units := true |}.

(** A world in which the device gives the listed answers, one for each
    exchange. *)
Definition answers (responses : list json) : World :=
  {| script := inr <$> responses; sent := []; today := (2017, 6) |}.

(** The reply of a plug that rejects [set_relay_state]:
    [{"system": {"set_relay_state": {"err_code": -3}}}]. *)
Definition rejected_reply : json :=
  JObj {[ "system" :=
    JObj {[ "set_relay_state" := JObj {[ "err_code" := JInt (-3) ]} ]} ]}.

(** C1: a response with the requested namespace present that carries a
    nonzero integer [err_code] in its innermost object, where the devices
    put it and where [_query_helper] deletes it, does not raise
    [SmartDeviceException]: the call returns the emptied object as its
    successful result. *)
Theorem query_helper_returns_rejected_command :
  fst (SmartDevice._query_helper (plug_at "192.168.1.105") "system"
         "set_relay_state" (Some (JObj {[ "state" := JInt 1 ]}))
         (answers [rejected_reply]))
  = Ok (JObj ∅).
Proof. vm_compute. reflexivity. Qed.

(** So [erase_emeter_stats], which relies on the helper to raise when the
    device refuses, reports that the statistics were deleted. *)
Example erase_reports_success_when_refused :
  fst (Emeter.erase_emeter_stats (bulb_at "192.168.1.106")
         (answers [JObj {[ "smartlife.iot.common.emeter" :=
            JObj {[ "erase_emeter_stat" :=
              JObj {[ "err_code" := JInt (-1) ]} ]} ]}]))
  = Ok true.
Proof. vm_compute. reflexivity. Qed.

(** C10: when the requested namespace is present and holds no nonzero
    [err_code] of its own, the helper returns the command's object with
    the key [err_code] deleted, whatever its value; a command object
    without [err_code], or a namespace without the command key, raises
    [KeyError], and a command value or namespace that is not a dict raises
    [TypeError]: never a result, never [SmartDeviceException]. *)
Theorem query_helper_deletes_err_code self target cmd arg w resp nsv rest :
  script w = inr (JObj resp) :: rest ->
  resp !! target = Some nsv ->
  no_namespace_error nsv = true ->
  fst (SmartDevice._query_helper self target cmd arg w) =
  match nsv with
  | JObj ns =>
      match ns !! cmd with
      | None => Raise (KeyError cmd)
      | Some (JObj inner) =>
          match inner !! "err_code" with
          | Some _ => Ok (JObj (delete "err_code" inner))
          | None => Raise (KeyError "err_code")
          end
      | Some _ => Raise TypeError
      end
  | _ => Raise TypeError
  end.
Proof.
  intros Hw Hns Hok. rewrite query_helper_run, Hw. cbn [fst].
  destruct nsv as [| | | |s|l|ns];
    try (unfold validate, contains, getitem, rbind; rewrite Hns;
         rewrite bool_decide_eq_true_2 by (eexists; reflexivity);
         reflexivity).
  - unfold validate, contains, getitem, rbind. rewrite Hns.
    rewrite bool_decide_eq_true_2 by (eexists; reflexivity). cbn [negb].
    destruct (str_contains s "err_code"); reflexivity.
  - unfold validate, contains, getitem, rbind. rewrite Hns.
    rewrite bool_decide_eq_true_2 by (eexists; reflexivity). cbn [negb].
    destruct (existsb (is_str "err_code") l); reflexivity.
  - cbn [no_namespace_error] in Hok.
    rewrite (validate_namespace _ _ _ _ Hns), Hok. reflexivity.
Qed.

Lemma query_helper_deletes_err_code_witness :
  let ns : json :=
    JObj {[ "get_sysinfo" := JObj {[ "alias" := JStr "lamp" ]} ]} in
  let resp : gmap string json := {[ "system" := ns ]} in
  script (answers [JObj resp]) = [inr (JObj resp)] /\
  resp !! "system" = Some ns /\
  no_namespace_error ns = true /\
  fst (SmartDevice._query_helper (plug_at "192.168.1.105") "system"
         "get_sysinfo" None (answers [JObj resp]))
  = Raise (KeyError "err_code").
Proof.
  intros ns resp.
  assert (H1 : script (answers [JObj resp]) = [inr (JObj resp)])
    by reflexivity.
  assert (H2 : resp !! "system" = Some ns) by reflexivity.
  assert (H3 : no_namespace_error ns = true) by reflexivity.
  split; [exact H1|]. split; [exact H2|]. split; [exact H3|].
  exact (query_helper_deletes_err_code (plug_at "192.168.1.105") "system"
           "get_sysinfo" None _ _ _ _ H1 H2 H3).
Defined.

(** ** Replies of a device *)

(** The reply [{target: {cmd: body}}] to the request for [cmd]. *)
Definition reply (target cmd : string) (body : gmap string json) : json :=
  JObj {[ target := JObj {[ cmd := JObj body ]} ]}.

Lemma validate_reply target cmd body :
  cmd <> "err_code" ->
  validate target cmd (reply target cmd body) =
  match body !! "err_code" with
  | Some _ => Ok (JObj (delete "err_code" body))
  | None => Raise (KeyError "err_code")
  end.
Proof.
  intros Hcmd. unfold reply.
  rewrite (validate_namespace target cmd _ {[ cmd := JObj body ]})
    by apply lookup_singleton_eq.
  unfold namespace_ok.
  rewrite lookup_singleton_ne by exact Hcmd.
  rewrite lookup_singleton_eq. reflexivity.
Qed.

Lemma query_helper_reply self target cmd arg w body code rest :
  cmd <> "err_code" ->
  script w = inr (reply target cmd body) :: rest ->
  body !! "err_code" = Some code ->
  SmartDevice._query_helper self target cmd arg w =
  (Ok (JObj (delete "err_code" body)),
   after w (ip_address self) (request target cmd (arg_or_empty arg))).
Proof.
  intros Hcmd Hw Hcode.
  rewrite query_helper_run, Hw, (validate_reply _ _ _ Hcmd), Hcode.
  reflexivity.
Qed.

(** The request by which [sys_info] reads the system information. *)
Definition sysinfo_request : json := request "system" "get_sysinfo" (JObj ∅).

Lemma sys_info_world self w :
  snd (SmartDevice.sys_info self w) =
  after w (ip_address self) sysinfo_request.
Proof.
  unfold SmartDevice.sys_info, SmartDevice.get_sysinfo, bind.
  rewrite query_helper_run.
  destruct (script w) as [|[e|r] rest]; try reflexivity.
  destruct (validate "system" "get_sysinfo" r) as [[]|]; reflexivity.
Qed.

Lemma sys_info_reply self w si code rest :
  script w = inr (reply "system" "get_sysinfo" si) :: rest ->
  si !! "err_code" = Some code ->
  SmartDevice.sys_info self w =
  (Ok (delete "err_code" si), after w (ip_address self) sysinfo_request).
Proof.
  intros Hw Hcode. unfold SmartDevice.sys_info, SmartDevice.get_sysinfo, bind.
  assert (Hne : "get_sysinfo" <> "err_code") by discriminate.
  rewrite (query_helper_reply _ _ _ _ _ _ _ _ Hne Hw Hcode).
  reflexivity.
Qed.

Lemma sys_info_get_delete si k :
  k <> "err_code" ->
  SmartDevice.sys_info_get (delete "err_code" si) k =
  SmartDevice.sys_info_get si k.
Proof.
  intros Hk. unfold SmartDevice.sys_info_get.
  rewrite lookup_delete_ne by congruence. reflexivity.
Qed.

(** ** Metering without an energy meter *)

Lemma plug_has_emeter_world self w :
  snd (SmartPlug.has_emeter self w) =
  after w (ip_address self) sysinfo_request.
Proof.
  unfold SmartPlug.has_emeter, bind.
  pose proof (sys_info_world self w) as Hw.
  destruct (SmartDevice.sys_info self w) as [[info|e] w1]; cbn [snd] in Hw;
    subst w1; [|reflexivity].
  unfold lift.
  destruct (split (SmartDevice.sys_info_get info "feature") ":");
    reflexivity.
Qed.

Lemma has_emeter_false_world self w :
  fst (has_emeter self w) = Ok false ->
  has_emeter self w =
  (Ok false, after w (ip_address self) sysinfo_request).
Proof.
  unfold has_emeter. destruct (cls self).
  - discriminate.
  - intros H. rewrite <- (plug_has_emeter_world self w), <- H.
    destruct (SmartPlug.has_emeter self w); reflexivity.
  - discriminate.
Qed.

(** C7: when [has_emeter] answers [False], each metering operation comes
    back with the absent result ([None], [False] for erasing) and the one
    request on the wire is the [get_sysinfo] query through which
    [has_emeter] read the feature flags: no metering query is sent. *)
Theorem metering_without_emeter self year month w :
  fst (has_emeter self w) = Ok false ->
  let w' := {| script := tail (script w);
               sent := sent w ++ [(ip_address self, sysinfo_request)];
               today := today w |} in
  Emeter.get_emeter_realtime self w = (Ok None, w') /\
  Emeter.get_emeter_daily self year month w = (Ok None, w') /\
  Emeter.get_emeter_monthly self year w = (Ok None, w') /\
  Emeter.erase_emeter_stats self w = (Ok false, w').
Proof.
  intros H w'. apply has_emeter_false_world in H.
  unfold Emeter.get_emeter_realtime, Emeter.get_emeter_daily,
    Emeter.get_emeter_monthly, Emeter.erase_emeter_stats, bind.
  rewrite H. repeat split.
Qed.

(** The reply of a plug that has a timer and no energy meter. *)
Definition sysinfo_without_emeter : gmap string json :=
  <["err_code" := JInt 0]>
  (<["feature" := JStr "TIM"]>
  (<["relay_state" := JInt 1]> ∅)).

Lemma metering_without_emeter_witness :
  let self := plug_at "192.168.1.105" in
  let w := answers [reply "system" "get_sysinfo" sysinfo_without_emeter] in
  fst (has_emeter self w) = Ok false /\
  Emeter.get_emeter_realtime self w =
    (Ok None,
     {| script := []; sent := [("192.168.1.105", sysinfo_request)];
        today := (2017, 6) |}) /\
  Emeter.erase_emeter_stats self w =
    (Ok false,
     {| script := []; sent := [("192.168.1.105", sysinfo_request)];
        today := (2017, 6) |}).
Proof.
  intros self w.
  assert (H : fst (has_emeter self w) = Ok false) by (vm_compute; reflexivity).
  destruct (metering_without_emeter self None None w H) as (H1 & _ & _ & H4).
  split; [exact H|]. split; [exact H1|exact H4].
Defined.

(** ** The light attributes of a bulb *)

Definition light_state_request : json :=
  request SmartBulb.lightingservice "get_light_state" (JObj ∅).

(** Where the attributes of the light are to be read: the top-level field
    of the light state while the bulb is on, the field of its default
    on-state while it is off. *)
Definition light_attribute (on : bool) (light_state : json) (k : string)
    : result json :=
  if on then getitem light_state k
  else getitem2 light_state "dft_on_state" k.

Section BulbReplies.

Variable self : Device.
Variable w : World.

Lemma get_light_state_reply ls code rest :
  script w = inr (reply SmartBulb.lightingservice "get_light_state" ls)
               :: rest ->
  ls !! "err_code" = Some code ->
  SmartBulb.get_light_state self w =
  (Ok (JObj (delete "err_code" ls)),
   after w (ip_address self) light_state_request).
Proof.
  intros Hw Hcode. unfold SmartBulb.get_light_state.
  assert (Hne : "get_light_state" <> "err_code") by discriminate.
  rewrite (query_helper_reply _ _ _ _ _ _ _ _ Hne Hw Hcode). reflexivity.
Qed.

Lemma is_on_reply ls code on_off rest :
  script w = inr (reply SmartBulb.lightingservice "get_light_state" ls)
               :: rest ->
  ls !! "err_code" = Some code ->
  ls !! "on_off" = Some on_off ->
  SmartBulb.is_on self w =
  (Ok (truth on_off), after w (ip_address self) light_state_request).
Proof.
  intros Hw Hcode Hon. unfold SmartBulb.is_on, SmartBulb.state, bind.
  rewrite (get_light_state_reply _ _ _ Hw Hcode).
  unfold lift, getitem. rewrite lookup_delete_ne by discriminate.
  rewrite Hon. destruct (truth on_off); reflexivity.
Qed.

Lemma capability_reply (flag : string) si code rest :
  flag <> "err_code" ->
  script w = inr (reply "system" "get_sysinfo" si) :: rest ->
  si !! "err_code" = Some code ->
  (let* info := SmartDevice.sys_info self in
   ret (truth (SmartDevice.sys_info_get info flag))) w =
  (Ok (truth (SmartDevice.sys_info_get si flag)),
   after w (ip_address self) sysinfo_request).
Proof.
  intros Hflag Hw Hcode. unfold bind.
  rewrite (sys_info_reply _ _ _ _ _ Hw Hcode).
  unfold ret. rewrite sys_info_get_delete by exact Hflag. reflexivity.
Qed.

End BulbReplies.

Section BulbGetters.

Variable self : Device.
Variable w : World.
Variables si ls ls' : gmap string json.
Variables si_code ls_code ls'_code on_off : json.
Variable rest : list (exn + json).

(** The bulb answers the capability query, then the light-state query of
    the getter, then the light-state query of [is_on]. *)
Hypothesis Hscript :
  script w =
  inr (reply "system" "get_sysinfo" si)
  :: inr (reply SmartBulb.lightingservice "get_light_state" ls)
  :: inr (reply SmartBulb.lightingservice "get_light_state" ls')
  :: rest.
Hypothesis Hsi : si !! "err_code" = Some si_code.
Hypothesis Hls : ls !! "err_code" = Some ls_code.
Hypothesis Hls' : ls' !! "err_code" = Some ls'_code.
Hypothesis Hon : ls' !! "on_off" = Some on_off.

Let light_state : json := JObj (delete "err_code" ls).
Let w1 : World := after w (ip_address self) sysinfo_request.
Let w2 : World := after w1 (ip_address self) light_state_request.

Lemma script_w1 :
  script w1 =
  inr (reply SmartBulb.lightingservice "get_light_state" ls)
  :: inr (reply SmartBulb.lightingservice "get_light_state" ls')
  :: rest.
Proof. unfold w1, after. cbn [script]. rewrite Hscript. reflexivity. Qed.

Lemma script_w2 :
  script w2 =
  inr (reply SmartBulb.lightingservice "get_light_state" ls') :: rest.
Proof. unfold w2, after. cbn [script]. rewrite script_w1. reflexivity. Qed.

(** The two exchanges that follow the capability check: the light state
    is fetched, then [is_on] fetches it again for [on_off]. *)
Ltac query_light_state :=
  unfold bind at 1; fold w1;
  rewrite (get_light_state_reply self _ _ _ _ script_w1 Hls);
  unfold bind at 1; fold w2;
  rewrite (is_on_reply self _ _ _ _ _ script_w2 Hls' Hon);
  fold light_state; unfold light_attribute, bind, lift, ret, rbind.

Lemma brightness_reading :
  fst (SmartBulb.brightness self w) =
  if truth (SmartDevice.sys_info_get si "is_dimmable") then
    let? b := light_attribute (truth on_off) light_state "brightness" in
    let? b := int b in
    Ok (Some b)
  else Ok None.
Proof.
  unfold SmartBulb.brightness, SmartBulb.is_dimmable.
  unfold bind at 1.
  assert (Hne : "is_dimmable" <> "err_code") by discriminate.
  rewrite (capability_reply self w _ _ _ _ Hne Hscript Hsi).
  destruct (truth (SmartDevice.sys_info_get si "is_dimmable"));
    cbn [negb]; [|reflexivity].
  query_light_state.
  destruct (truth on_off); cbn [negb].
  - destruct (getitem light_state "brightness") as [b|]; [|reflexivity].
    destruct (int b); reflexivity.
  - destruct (getitem2 light_state "dft_on_state" "brightness") as [b|];
      [|reflexivity].
    destruct (int b); reflexivity.
Qed.

Lemma color_temp_reading :
  fst (SmartBulb.color_temp self w) =
  if truth (SmartDevice.sys_info_get si "is_variable_color_temp") then
    let? t := light_attribute (truth on_off) light_state "color_temp" in
    let? t := int t in
    Ok (Some t)
  else Ok None.
Proof.
  unfold SmartBulb.color_temp, SmartBulb.is_variable_color_temp.
  unfold bind at 1.
  assert (Hne : "is_variable_color_temp" <> "err_code") by discriminate.
  rewrite (capability_reply self w _ _ _ _ Hne Hscript Hsi).
  destruct (truth (SmartDevice.sys_info_get si "is_variable_color_temp"));
    cbn [negb]; [|reflexivity].
  query_light_state.
  destruct (truth on_off); cbn [negb].
  - destruct (getitem light_state "color_temp") as [b|]; [|reflexivity].
    destruct (int b); reflexivity.
  - destruct (getitem2 light_state "dft_on_state" "color_temp") as [b|];
      [|reflexivity].
    destruct (int b); reflexivity.
Qed.

Lemma hsv_reading :
  fst (SmartBulb.hsv self w) =
  if truth (SmartDevice.sys_info_get si "is_color") then
    let? hue := light_attribute (truth on_off) light_state "hue" in
    let? saturation :=
      light_attribute (truth on_off) light_state "saturation" in
    let? b := light_attribute (truth on_off) light_state "brightness" in
    let? value := SmartBulb.scaled b 255 100 in
    Ok (Some (hue, saturation, value))
  else Ok None.
Proof.
  unfold SmartBulb.hsv, SmartBulb.is_color.
  unfold bind at 1.
  assert (Hne : "is_color" <> "err_code") by discriminate.
  rewrite (capability_reply self w _ _ _ _ Hne Hscript Hsi).
  destruct (truth (SmartDevice.sys_info_get si "is_color"));
    cbn [negb]; [|reflexivity].
  query_light_state.
  destruct (truth on_off); cbn [negb].
  - destruct (getitem light_state "hue"); [|reflexivity].
    destruct (getitem light_state "saturation"); [|reflexivity].
    destruct (getitem light_state "brightness") as [b|]; [|reflexivity].
    destruct (SmartBulb.scaled b 255 100); reflexivity.
  - destruct (getitem2 light_state "dft_on_state" "hue"); [|reflexivity].
    destruct (getitem2 light_state "dft_on_state" "saturation");
      [|reflexivity].
    destruct (getitem2 light_state "dft_on_state" "brightness") as [b|];
      [|reflexivity].
    destruct (SmartBulb.scaled b 255 100); reflexivity.
Qed.

End BulbGetters.

(** C3: with the capability advertised, the brightness, colour temperature
    and hue, saturation and value getters read their fields through
    [light_attribute]: from [dft_on_state] of the light state when the
    bulb's state query reports [on_off] falsy, from the top level of the
    light state when it reports the bulb on. *)
Theorem bulb_getters_follow_on_off self w
    (si ls ls' : gmap string json) (si_code ls_code ls'_code on_off : json)
    rest :
  script w =
    inr (reply "system" "get_sysinfo" si)
    :: inr (reply SmartBulb.lightingservice "get_light_state" ls)
    :: inr (reply SmartBulb.lightingservice "get_light_state" ls')
    :: rest ->
  si !! "err_code" = Some si_code ->
  ls !! "err_code" = Some ls_code ->
  ls' !! "err_code" = Some ls'_code ->
  ls' !! "on_off" = Some on_off ->
  let light_state := JObj (delete "err_code" ls) in
  let read := light_attribute (truth on_off) light_state in
  fst (SmartBulb.brightness self w) =
    (if truth (SmartDevice.sys_info_get si "is_dimmable") then
       let? b := read "brightness" in
       let? b := int b in
       Ok (Some b)
     else Ok None) /\
  fst (SmartBulb.color_temp self w) =
    (if truth (SmartDevice.sys_info_get si "is_variable_color_temp") then
       let? t := read "color_temp" in
       let? t := int t in
       Ok (Some t)
     else Ok None) /\
  fst (SmartBulb.hsv self w) =
    (if truth (SmartDevice.sys_info_get si "is_color") then
       let? hue := read "hue" in
       let? saturation := read "saturation" in
       let? b := read "brightness" in
       let? value := SmartBulb.scaled b 255 100 in
       Ok (Some (hue, saturation, value))
     else Ok None).
Proof.
  intros Hw Hsi Hls Hls' Hon light_state read. split; [|split].
  - exact (brightness_reading self w si ls ls' _ _ _ _ rest Hw Hsi Hls Hls'
             Hon).
  - exact (color_temp_reading self w si ls ls' _ _ _ _ rest Hw Hsi Hls Hls'
             Hon).
  - exact (hsv_reading self w si ls ls' _ _ _ _ rest Hw Hsi Hls Hls' Hon).
Qed.

(** A colour bulb and its light state while switched off: the top-level
    fields are those of the dark bulb, the default on-state holds the
    attributes it will light up with. *)
Definition color_bulb_sysinfo : gmap string json :=
  <["err_code" := JInt 0]>
  (<["is_color" := JInt 1]>
  (<["is_dimmable" := JInt 1]>
  (<["is_variable_color_temp" := JInt 1]> ∅))).

Definition dft_on_state_example : json :=
  JObj (<["brightness" := JInt 80]>
       (<["hue" := JInt 120]>
       (<["saturation" := JInt 50]>
       (<["color_temp" := JInt 2700]> ∅)))).

Definition light_state_off : gmap string json :=
  <["err_code" := JInt 0]>
  (<["on_off" := JInt 0]>
  (<["brightness" := JInt 0]>
  (<["hue" := JInt 0]>
  (<["saturation" := JInt 0]>
  (<["color_temp" := JInt 0]>
  (<["dft_on_state" := dft_on_state_example]> ∅)))))).

Lemma bulb_getters_follow_on_off_witness :
  let self := bulb_at "192.168.1.106" in
  let w :=
    answers [reply "system" "get_sysinfo" color_bulb_sysinfo;
             reply SmartBulb.lightingservice "get_light_state" light_state_off;
             reply SmartBulb.lightingservice "get_light_state" light_state_off]
  in
  light_state_off !! "on_off" = Some (JInt 0) /\
  fst (SmartBulb.brightness self w) = Ok (Some 80) /\
  fst (SmartBulb.color_temp self w) = Ok (Some 2700) /\
  fst (SmartBulb.hsv self w) = Ok (Some (JInt 120, JInt 50, 204)).
Proof.
  intros self w.
  assert (Hw : script w =
    inr (reply "system" "get_sysinfo" color_bulb_sysinfo)
    :: inr (reply SmartBulb.lightingservice "get_light_state" light_state_off)
    :: inr (reply SmartBulb.lightingservice "get_light_state" light_state_off)
    :: []) by reflexivity.
  assert (Hsi : color_bulb_sysinfo !! "err_code" = Some (JInt 0))
    by reflexivity.
  assert (Hls : light_state_off !! "err_code" = Some (JInt 0))
    by reflexivity.
  assert (Hon : light_state_off !! "on_off" = Some (JInt 0)) by reflexivity.
  destruct (bulb_getters_follow_on_off self w _ _ _ _ _ _ _ _
              Hw Hsi Hls Hls Hon) as (Hb & Hc & Hh).
  split; [exact Hon|]. split; [|split].
  - etransitivity; [exact Hb|]. vm_compute. reflexivity.
  - etransitivity; [exact Hc|]. vm_compute. reflexivity.
  - etransitivity; [exact Hh|]. vm_compute. reflexivity.
Defined.

(** ** Daily statistics of the energy meter *)

(** A dict all of whose keys are integers. *)
Definition int_keyed (d : pydict) : Prop :=
  Forall (fun kv => exists z, fst kv = JInt z) d.

Lemma dict_set_int_keyed d k v :
  int_keyed d -> int_keyed (dict_set d (JInt k) v).
Proof.
  unfold int_keyed. induction 1 as [|[k' v'] d [z Hz] Hd IH]; cbn.
  - repeat constructor. exists k. reflexivity.
  - cbn in Hz. subst k'. cbn.
    destruct (z =? k); constructor; eauto.
Qed.

Lemma dict_get_set d k v k' :
  int_keyed d ->
  dict_get (dict_set d (JInt k) v) (JInt k') =
  if k =? k' then Some v else dict_get d (JInt k').
Proof.
  unfold int_keyed. induction 1 as [|[k0 v0] d [z Hz] Hd IH]; cbn.
  - reflexivity.
  - cbn in Hz. subst k0. cbn.
    destruct (Z.eqb_spec z k) as [->|Hzk]; cbn.
    + destruct (Z.eqb_spec k k') as [->|Hkk']; [reflexivity|reflexivity].
    + destruct (Z.eqb_spec z k') as [->|Hzk'].
      * destruct (Z.eqb_spec k k') as [->|_]; [contradiction|reflexivity].
      * exact IH.
Qed.

(** The pairs of period and value inserted one after the other. *)
Definition insert_all (pairs : list (Z * json)) (d : pydict) : pydict :=
  fold_left (fun d p => dict_set d (JInt (fst p)) (snd p)) pairs d.

Lemma dict_get_insert_all pairs d day :
  int_keyed d ->
  dict_get (insert_all pairs d) (JInt day) =
  match last (filter (fun p => fst p = day) pairs) with
  | Some p => Some (snd p)
  | None => dict_get d (JInt day)
  end.
Proof.
  revert d. unfold insert_all.
  induction pairs as [|[k v] pairs IH]; intros d Hd.
  - reflexivity.
  - cbn [fold_left fst snd].
    rewrite IH by (apply dict_set_int_keyed, Hd).
    rewrite filter_cons. cbn [fst snd].
    destruct (decide (k = day)) as [->|Hne].
    + rewrite last_cons.
      destruct (last (filter (fun p => fst p = day) pairs)); [reflexivity|].
      rewrite dict_get_set by exact Hd. rewrite Z.eqb_refl. reflexivity.
    + destruct (last (filter (fun p => fst p = day) pairs)); [reflexivity|].
      rewrite dict_get_set by exact Hd.
      destruct (Z.eqb_spec k day); [contradiction|reflexivity].
Qed.

(** An entry of the list holds the period and the value of a pair. *)
Definition entry_of (period key : string) (entry : json) (p : Z * json)
    : Prop :=
  getitem entry period = Ok (JInt (fst p)) /\ getitem entry key = Ok (snd p).

Lemma collect_entries period key entries pairs d :
  Forall2 (entry_of period key) entries pairs ->
  Emeter.collect period key entries d = Ok (insert_all pairs d).
Proof.
  intros H. revert d.
  induction H as [|entry [k v] entries pairs [Hk Hv] _ IH]; intros d.
  - reflexivity.
  - cbn [Emeter.collect]. cbn [fst snd] in Hk, Hv. rewrite Hk, Hv.
    cbn. apply IH.
Qed.

(** C5: on a device with an energy meter, the daily statistics are the
    dict that maps the [day] of each entry of [day_list] to the entry's
    energy, read from [energy_wh] when the device's unit flag is set and
    from [energy] when it is not; a day listed twice keeps its last
    value. *)
Theorem daily_energy_by_day self year month w w1
    (body : gmap string json) (code : json) (entries : list json)
    (pairs : list (Z * json)) rest :
  has_emeter self w = (Ok true, w1) ->
  script w1 = inr (reply (emeter_type self) "get_daystat" body) :: rest ->
  body !! "err_code" = Some code ->
  body !! "day_list" = Some (JArr entries) ->
  Forall2
    (entry_of "day" (if emeter_units self then "energy_wh" else "energy"))
    entries pairs ->
  fst (Emeter.get_emeter_daily self year month w) =
    Ok (Some (insert_all pairs [])) /\
  forall day,
    dict_get (insert_all pairs []) (JInt day) =
    snd <$> last (filter (fun p => fst p = day) pairs).
Proof.
  intros Hhas Hw1 Hcode Hlist Hentries. split.
  - unfold Emeter.get_emeter_daily. unfold bind at 1. rewrite Hhas.
    cbn [negb].
    assert (Hne : "get_daystat" <> "err_code") by discriminate.
    assert (Hq : forall arg w2, script w2 = script w1 ->
      SmartDevice._query_helper self (emeter_type self) "get_daystat" arg w2 =
      (Ok (JObj (delete "err_code" body)),
       after w2 (ip_address self)
         (request (emeter_type self) "get_daystat" (arg_or_empty arg)))).
    { intros arg w2 Hw2. rewrite <- Hw2 in Hw1.
      exact (query_helper_reply _ _ _ _ _ _ _ _ Hne Hw1 Hcode). }
    assert (Hrest : forall arg w2, script w2 = script w1 ->
      fst ((let* response :=
              SmartDevice._query_helper self (emeter_type self) "get_daystat"
                arg in
            let key := Emeter.energy_key self in
            let* day_list := lift (getitem response "day_list") in
            let* entries := lift (iter day_list) in
            let* d := lift (Emeter.collect "day" key entries []) in
            ret (Some d)) w2) = Ok (Some (insert_all pairs []))).
    { intros arg w2 Hw2. unfold bind at 1. rewrite (Hq arg w2 Hw2).
      unfold bind, lift, ret, getitem.
      rewrite lookup_delete_ne by discriminate. rewrite Hlist.
      cbn [iter]. unfold Emeter.energy_key.
      rewrite (collect_entries _ _ _ _ _ Hentries). reflexivity. }
    destruct year as [y|], month as [m|]; unfold bind at 1, now, ret;
      try (unfold bind at 1); try (unfold bind at 1);
      apply Hrest; reflexivity.
  - intros day. rewrite dict_get_insert_all by constructor.
    destruct (last (filter (fun p => fst p = day) pairs)); reflexivity.
Qed.

(** The entries [{day: 1, energy_wh: 120}] and [{day: 2, energy_wh: 80}]
    of the month, as a bulb reports them. *)
Definition day_entry (key : string) (day energy : Z) : json :=
  JObj (<["day" := JInt day]> (<[key := JInt energy]> ∅)).

Definition daystat_body (key : string) : gmap string json :=
  <["err_code" := JInt 0]>
  (<["day_list" := JArr [day_entry key 1 120; day_entry key 2 80]]> ∅).

Lemma daily_energy_by_day_witness :
  let self := bulb_at "192.168.1.106" in
  let w := answers [reply (emeter_type self) "get_daystat"
                      (daystat_body "energy_wh")] in
  has_emeter self w = (Ok true, w) /\
  fst (Emeter.get_emeter_daily self (Some 2017) (Some 6) w) =
    Ok (Some [(JInt 1, JInt 120); (JInt 2, JInt 80)]).
Proof.
  intros self w.
  assert (Hhas : has_emeter self w = (Ok true, w)) by reflexivity.
  assert (Hw : script w =
    inr (reply (emeter_type self) "get_daystat" (daystat_body "energy_wh"))
    :: []) by reflexivity.
  assert (Hcode : daystat_body "energy_wh" !! "err_code" = Some (JInt 0))
    by reflexivity.
  assert (Hlist : daystat_body "energy_wh" !! "day_list" =
    Some (JArr [day_entry "energy_wh" 1 120; day_entry "energy_wh" 2 80]))
    by reflexivity.
  assert (Hentries : Forall2
    (entry_of "day" (if emeter_units self then "energy_wh" else "energy"))
    [day_entry "energy_wh" 1 120; day_entry "energy_wh" 2 80]
    [(1, JInt 120); (2, JInt 80)]).
  { repeat constructor. }
  split; [exact Hhas|].
  exact (proj1 (daily_energy_by_day self (Some 2017) (Some 6) w w _ _ _ _ _
                  Hhas Hw Hcode Hlist Hentries)).
Defined.

(** A plug with an energy meter reports raw units: the same days are read
    from the field [energy]. *)
Example daily_energy_raw_units :
  let self := plug_at "192.168.1.105" in
  let sysinfo : gmap string json :=
    <["err_code" := JInt 0]> (<["feature" := JStr "TIM:ENE"]> ∅) in
  let w := answers [reply "system" "get_sysinfo" sysinfo;
                    reply "emeter" "get_daystat" (daystat_body "energy")] in
  fst (Emeter.get_emeter_daily self None None w) =
    Ok (Some [(JInt 1, JInt 120); (JInt 2, JInt 80)]) /\
  fst (Emeter.get_emeter_daily self None None
         (answers [reply "system" "get_sysinfo" sysinfo;
                   reply "emeter" "get_daystat" (daystat_body "energy_wh")]))
    = Raise (KeyError "energy").
Proof. split; vm_compute; reflexivity. Qed.

(** ** Brightness on the two scales *)

(** The value component of [hsv] is on the scale 0–255, the bulb's
    [brightness] on the scale 0–100: the setter sends
    [int(state[2] * 100 / 255)], the getter returns
    [int(brightness * 255 / 100)], both computed by [SmartBulb.scaled]. *)
Definition truncates (k d v : Z) : bool :=
  match SmartBulb.scaled (JInt v) k d with
  | Ok z => z =? Z.quot (v * k) d
  | Raise _ => false
  end.

Definition span (lo : Z) (n : nat) : list Z :=
  (fun i => lo + Z.of_nat i) <$> seq 0 n.

Lemma span_covers lo n v : lo <= v < lo + Z.of_nat n -> In v (span lo n).
Proof.
  intros Hv. unfold span. apply in_map_iff.
  exists (Z.to_nat (v - lo)). split; [lia|].
  apply in_seq. lia.
Qed.

Lemma truncates_checked :
  forallb (truncates 100 255) (span (-1000) 2001) &&
  forallb (truncates 255 100) (span (-1000) 2001) = true.
Proof. vm_compute. reflexivity. Qed.

Lemma scaled_truncates k d v :
  truncates k d v = true ->
  SmartBulb.scaled (JInt v) k d = Ok (Z.quot (v * k) d).
Proof.
  unfold truncates. destruct (SmartBulb.scaled (JInt v) k d) as [z|];
    [|discriminate].
  intros H. apply Z.eqb_eq in H. subst z. reflexivity.
Qed.

(** External to native and back. *)
Definition there_and_back (v : Z) : result Z :=
  let? native := SmartBulb.scaled (JInt v) 100 255 in
  SmartBulb.scaled (JInt native) 255 100.

(** The setter of [hsv] puts the converted value in the request it
    sends. *)
Lemma set_hsv_request self w si code hue saturation value rest :
  script w = inr (reply "system" "get_sysinfo" si) :: rest ->
  si !! "err_code" = Some code ->
  truth (SmartDevice.sys_info_get si "is_color") = true ->
  sent (snd (SmartBulb.set_hsv self (hue, saturation, value) w)) =
  match SmartBulb.scaled value 100 255 with
  | Ok brightness =>
      sent w ++
      [(ip_address self, sysinfo_request);
       (ip_address self,
        request SmartBulb.lightingservice "transition_light_state"
          (JObj (<["hue" := hue]>
                (<["saturation" := saturation]>
                (<["brightness" := JInt brightness]>
                (<["color_temp" := JInt 0]> ∅))))))]
  | Raise _ => sent w ++ [(ip_address self, sysinfo_request)]
  end.
Proof.
  intros Hw Hcode Hcolor. unfold SmartBulb.set_hsv, SmartBulb.is_color.
  unfold bind at 1.
  assert (Hne : "is_color" <> "err_code") by discriminate.
  rewrite (capability_reply self w _ _ _ _ Hne Hw Hcode), Hcolor.
  cbn [negb]. unfold bind at 1, lift.
  destruct (SmartBulb.scaled value 100 255) as [b|e]; [|reflexivity].
  unfold bind, SmartBulb.set_light_state. rewrite query_helper_run.
  match goal with
  | |- context [match ?x with Ok _ => _ | Raise _ => _ end] => destruct x
  end; cbn; rewrite <- app_assoc; reflexivity.
Qed.

(** C6: in both directions the conversion is the integer quotient
    truncated toward zero.  The setter of [hsv] sends the brightness
    [v * 100 / 255] for the value [v], and the getter returns the value
    [b * 255 / 100] for the brightness [b] that the bulb reports; 255
    becomes 100 and 0 becomes 0; going to the native scale and back does
    not give the value back in general (1 becomes 0, 128 becomes 127). *)
Theorem brightness_conversion_truncates self w w'
    (si ls ls' : gmap string json) (si_code ls_code ls'_code on_off : json)
    (hue saturation hue' saturation' : json) (v b : Z) rest rest' :
  -1000 <= v <= 1000 ->
  -1000 <= b <= 1000 ->
  si !! "err_code" = Some si_code ->
  truth (SmartDevice.sys_info_get si "is_color") = true ->
  script w = inr (reply "system" "get_sysinfo" si) :: rest ->
  script w' =
    inr (reply "system" "get_sysinfo" si)
    :: inr (reply SmartBulb.lightingservice "get_light_state" ls)
    :: inr (reply SmartBulb.lightingservice "get_light_state" ls')
    :: rest' ->
  ls !! "err_code" = Some ls_code ->
  ls' !! "err_code" = Some ls'_code ->
  ls' !! "on_off" = Some on_off ->
  light_attribute (truth on_off) (JObj (delete "err_code" ls)) "hue"
    = Ok hue' ->
  light_attribute (truth on_off) (JObj (delete "err_code" ls)) "saturation"
    = Ok saturation' ->
  light_attribute (truth on_off) (JObj (delete "err_code" ls)) "brightness"
    = Ok (JInt b) ->
  sent (snd (SmartBulb.set_hsv self (hue, saturation, JInt v) w)) =
    sent w ++
    [(ip_address self, sysinfo_request);
     (ip_address self,
      request SmartBulb.lightingservice "transition_light_state"
        (JObj (<["hue" := hue]>
              (<["saturation" := saturation]>
              (<["brightness" := JInt (Z.quot (v * 100) 255)]>
              (<["color_temp" := JInt 0]> ∅))))))] /\
  fst (SmartBulb.hsv self w') =
    Ok (Some (hue', saturation', Z.quot (b * 255) 100)) /\
  SmartBulb.scaled (JInt v) 100 255 = Ok (Z.quot (v * 100) 255) /\
  SmartBulb.scaled (JInt v) 255 100 = Ok (Z.quot (v * 255) 100) /\
  SmartBulb.scaled (JInt 255) 100 255 = Ok 100 /\
  SmartBulb.scaled (JInt 0) 100 255 = Ok 0 /\
  SmartBulb.scaled (JInt 100) 255 100 = Ok 255 /\
  there_and_back 1 = Ok 0 /\
  there_and_back 128 = Ok 127.
Proof.
  intros Hv Hb Hsi Hcolor Hw Hw' Hls Hls' Hon Hhue Hsat Hbright.
  pose proof truncates_checked as H. apply andb_prop in H as [H1 H2].
  assert (Hnative : forall x, -1000 <= x <= 1000 ->
            SmartBulb.scaled (JInt x) 100 255 = Ok (Z.quot (x * 100) 255)).
  { intros x Hx. apply scaled_truncates.
    apply (proj1 (forallb_forall _ _) H1), span_covers. lia. }
  assert (Hvalue : forall x, -1000 <= x <= 1000 ->
            SmartBulb.scaled (JInt x) 255 100 = Ok (Z.quot (x * 255) 100)).
  { intros x Hx. apply scaled_truncates.
    apply (proj1 (forallb_forall _ _) H2), span_covers. lia. }
  split; [|split; [|split; [|split]]].
  - rewrite (set_hsv_request self w si si_code hue saturation (JInt v) rest
               Hw Hsi Hcolor).
    rewrite (Hnative v Hv). reflexivity.
  - rewrite (hsv_reading self w' si ls ls' si_code ls_code ls'_code on_off
               rest' Hw' Hsi Hls Hls' Hon).
    rewrite Hcolor, Hhue, Hsat, Hbright. cbn [rbind].
    rewrite (Hvalue b Hb). reflexivity.
  - exact (Hnative v Hv).
  - exact (Hvalue v Hv).
  - repeat split; vm_compute; reflexivity.
Qed.

(** A lit colour bulb at brightness 50. *)
Definition light_state_lit : gmap string json :=
  <["err_code" := JInt 0]>
  (<["on_off" := JInt 1]>
  (<["hue" := JInt 240]>
  (<["saturation" := JInt 75]>
  (<["brightness" := JInt 50]> ∅)))).

Lemma brightness_conversion_truncates_witness :
  let self := bulb_at "192.168.1.106" in
  let w := answers [reply "system" "get_sysinfo" color_bulb_sysinfo] in
  let w' :=
    answers [reply "system" "get_sysinfo" color_bulb_sysinfo;
             reply SmartBulb.lightingservice "get_light_state" light_state_lit;
             reply SmartBulb.lightingservice "get_light_state" light_state_lit]
  in
  -1000 <= 128 <= 1000 /\
  -1000 <= 50 <= 1000 /\
  truth (SmartDevice.sys_info_get color_bulb_sysinfo "is_color") = true /\
  light_attribute (truth (JInt 1)) (JObj (delete "err_code" light_state_lit))
    "brightness" = Ok (JInt 50) /\
  sent (snd (SmartBulb.set_hsv self (JInt 240, JInt 75, JInt 128) w)) =
    [("192.168.1.106", sysinfo_request);
     ("192.168.1.106",
      request SmartBulb.lightingservice "transition_light_state"
        (JObj (<["hue" := JInt 240]>
              (<["saturation" := JInt 75]>
              (<["brightness" := JInt 50]>
              (<["color_temp" := JInt 0]> ∅))))))] /\
  fst (SmartBulb.hsv self w') = Ok (Some (JInt 240, JInt 75, 127)).
Proof.
  intros self w w'.
  assert (Hv : -1000 <= 128 <= 1000) by lia.
  assert (Hb : -1000 <= 50 <= 1000) by lia.
  assert (Hsi : color_bulb_sysinfo !! "err_code" = Some (JInt 0))
    by reflexivity.
  assert (Hcolor :
    truth (SmartDevice.sys_info_get color_bulb_sysinfo "is_color") = true)
    by reflexivity.
  assert (Hw : script w =
    inr (reply "system" "get_sysinfo" color_bulb_sysinfo) :: [])
    by reflexivity.
  assert (Hw' : script w' =
    inr (reply "system" "get_sysinfo" color_bulb_sysinfo)
    :: inr (reply SmartBulb.lightingservice "get_light_state" light_state_lit)
    :: inr (reply SmartBulb.lightingservice "get_light_state" light_state_lit)
    :: []) by reflexivity.
  assert (Hls : light_state_lit !! "err_code" = Some (JInt 0)) by reflexivity.
  assert (Hon : light_state_lit !! "on_off" = Some (JInt 1)) by reflexivity.
  assert (Hhue :
    light_attribute (truth (JInt 1))
      (JObj (delete "err_code" light_state_lit)) "hue" = Ok (JInt 240))
    by reflexivity.
  assert (Hsat :
    light_attribute (truth (JInt 1))
      (JObj (delete "err_code" light_state_lit)) "saturation" = Ok (JInt 75))
    by reflexivity.
  assert (Hbright :
    light_attribute (truth (JInt 1))
      (JObj (delete "err_code" light_state_lit)) "brightness" = Ok (JInt 50))
    by reflexivity.
  destruct (brightness_conversion_truncates self w w' _ _ _ _ _ _ _
              (JInt 240) (JInt 75) _ _ 128 50 _ _
              Hv Hb Hsi Hcolor Hw Hw' Hls Hls Hon Hhue Hsat Hbright)
    as (Hset & Hget & _).
  split; [exact Hv|]. split; [exact Hb|]. split; [exact Hcolor|].
  split; [exact Hbright|]. split; [exact Hset|exact Hget].
Defined.

(** A colour bulb asked for the value 255 is sent the brightness 100, and
    a lit bulb at brightness 50 reads as the value 127. *)
Example hsv_value_on_the_wire :
  let self := bulb_at "192.168.1.106" in
  let lit : gmap string json :=
    <["err_code" := JInt 0]>
    (<["on_off" := JInt 1]>
    (<["hue" := JInt 240]>
    (<["saturation" := JInt 75]>
    (<["brightness" := JInt 50]> ∅)))) in
  sent (snd (SmartBulb.set_hsv self (JInt 240, JInt 75, JInt 255)
               (answers [reply "system" "get_sysinfo" color_bulb_sysinfo;
                         reply SmartBulb.lightingservice
                           "transition_light_state"
                           {[ "err_code" := JInt 0 ]}]))) =
    [("192.168.1.106", sysinfo_request);
     ("192.168.1.106",
      request SmartBulb.lightingservice "transition_light_state"
        (JObj (<["hue" := JInt 240]>
              (<["saturation" := JInt 75]>
              (<["brightness" := JInt 100]>
              (<["color_temp" := JInt 0]> ∅))))))] /\
  fst (SmartBulb.hsv self
         (answers [reply "system" "get_sysinfo" color_bulb_sysinfo;
                   reply SmartBulb.lightingservice "get_light_state" lit;
                   reply SmartBulb.lightingservice "get_light_state" lit])) =
    Ok (Some (JInt 240, JInt 75, 127)).
Proof. split; vm_compute; reflexivity. Qed.

(** ** Validation of what the caller supplies *)

Example inet_pton_accepts :
  Socket.inet_pton "192.168.1.105" = Ok [192; 168; 1; 105].
Proof. reflexivity. Qed.

Example inet_pton_rejects :
  Socket.inet_pton "192.168.1" = Raise socket_error /\
  Socket.inet_pton "192.168.1.256" = Raise socket_error /\
  Socket.inet_pton "192.168.01.105" = Raise socket_error /\
  Socket.inet_pton "plug.local" = Raise socket_error.
Proof. repeat split. Qed.

(** The request by which the brightness setter hands a value to the
    bulb. *)
Definition brightness_request (brightness : json) : json :=
  request SmartBulb.lightingservice "transition_light_state"
    (JObj {[ "brightness" := brightness ]}).

Lemma set_brightness_run self w si code brightness rest :
  script w = inr (reply "system" "get_sysinfo" si) :: rest ->
  si !! "err_code" = Some code ->
  truth (SmartDevice.sys_info_get si "is_dimmable") = true ->
  SmartBulb.set_brightness self brightness w =
  let w1 := after w (ip_address self) sysinfo_request in
  (match script w1 with
   | inr response :: _ =>
       let? _ := validate SmartBulb.lightingservice "transition_light_state"
                   response in
       Ok tt
   | _ => Raise (SmartDeviceException CommunicationError)
   end,
   after w1 (ip_address self) (brightness_request brightness)).
Proof.
  intros Hw Hcode Hdim. unfold SmartBulb.set_brightness, SmartBulb.is_dimmable.
  unfold bind at 1.
  assert (Hne : "is_dimmable" <> "err_code") by discriminate.
  rewrite (capability_reply self w _ _ _ _ Hne Hw Hcode), Hdim.
  cbn [negb]. unfold bind, SmartBulb.set_light_state.
  rewrite query_helper_run. cbv zeta.
  destruct (script (after w (ip_address self) sysinfo_request))
    as [|[e|response] rest']; try reflexivity.
  destruct (validate SmartBulb.lightingservice "transition_light_state"
              response); reflexivity.
Qed.

(** C8, as the code has it: a malformed address makes the construction of
    a device raise before anything the caller goes on to do with it, so
    that the world is left as it was; the brightness setter checks no
    range and no type, and on a dimmable bulb that accepts the command
    the value given is sent unchanged and the setter returns. *)
Theorem address_validated_brightness_forwarded
    (A : Type) (op : Device -> M A) ip self w
    (si body : gmap string json) (code code' brightness : json) rest :
  Socket.inet_pton ip = Raise socket_error ->
  script w =
    inr (reply "system" "get_sysinfo" si)
    :: inr (reply SmartBulb.lightingservice "transition_light_state" body)
    :: rest ->
  si !! "err_code" = Some code ->
  body !! "err_code" = Some code' ->
  truth (SmartDevice.sys_info_get si "is_dimmable") = true ->
  (let* dev := lift (SmartPlug.__init__ ip) in op dev) w
    = (Raise socket_error, w) /\
  (let* dev := lift (SmartBulb.__init__ ip) in op dev) w
    = (Raise socket_error, w) /\
  SmartBulb.set_brightness self brightness w =
    (Ok tt,
     {| script := rest;
        sent := sent w ++ [(ip_address self, sysinfo_request);
                           (ip_address self, brightness_request brightness)];
        today := today w |}).
Proof.
  intros Hip Hw Hcode Hcode' Hdim. split; [|split].
  - unfold bind, lift, SmartPlug.__init__, SmartDevice.__init__, rbind.
    rewrite Hip. reflexivity.
  - unfold bind, lift, SmartBulb.__init__, SmartDevice.__init__, rbind.
    rewrite Hip. reflexivity.
  - rewrite (set_brightness_run _ _ _ _ _ _ Hw Hcode Hdim). cbv zeta.
    unfold after. cbn [script sent today]. rewrite Hw. cbn [tail].
    assert (Hne : "transition_light_state" <> "err_code") by discriminate.
    rewrite (validate_reply _ _ _ Hne), Hcode'. cbn [rbind].
    rewrite <- app_assoc. reflexivity.
Qed.

Definition accepted_body : gmap string json := {[ "err_code" := JInt 0 ]}.

Definition dimmable_bulb_world : World :=
  answers [reply "system" "get_sysinfo" color_bulb_sysinfo;
           reply SmartBulb.lightingservice "transition_light_state"
             accepted_body].

Lemma address_validated_brightness_forwarded_witness :
  let self := bulb_at "192.168.1.106" in
  Socket.inet_pton "192.168.1" = Raise socket_error /\
  truth (SmartDevice.sys_info_get color_bulb_sysinfo "is_dimmable") = true /\
  (let* dev := lift (SmartBulb.__init__ "192.168.1") in
   SmartBulb.brightness dev) dimmable_bulb_world
    = (Raise socket_error, dimmable_bulb_world) /\
  SmartBulb.set_brightness self (JInt 42) dimmable_bulb_world =
    (Ok tt,
     {| script := [];
        sent := [("192.168.1.106", sysinfo_request);
                 ("192.168.1.106", brightness_request (JInt 42))];
        today := (2017, 6) |}).
Proof.
  intros self.
  assert (Hip : Socket.inet_pton "192.168.1" = Raise socket_error)
    by reflexivity.
  assert (Hw : script dimmable_bulb_world =
    inr (reply "system" "get_sysinfo" color_bulb_sysinfo)
    :: inr (reply SmartBulb.lightingservice "transition_light_state"
              accepted_body)
    :: []) by reflexivity.
  assert (Hcode : color_bulb_sysinfo !! "err_code" = Some (JInt 0))
    by reflexivity.
  assert (Hcode' : accepted_body !! "err_code" = Some (JInt 0))
    by reflexivity.
  assert (Hdim :
    truth (SmartDevice.sys_info_get color_bulb_sysinfo "is_dimmable") = true)
    by reflexivity.
  destruct (address_validated_brightness_forwarded _ SmartBulb.brightness
              "192.168.1" self dimmable_bulb_world _ _ _ _ (JInt 42) _
              Hip Hw Hcode Hcode' Hdim) as (_ & H2 & H3).
  split; [exact Hip|]. split; [exact Hdim|]. split; [exact H2|exact H3].
Defined.

(** C8 as stated fails for the brightness: 150 is outside 0–100, and the
    setter raises nothing and sends it to the bulb. *)
Lemma brightness_out_of_range_is_sent :
  SmartBulb.set_brightness (bulb_at "192.168.1.106") (JInt 150)
    dimmable_bulb_world =
  (Ok tt,
   {| script := [];
      sent := [("192.168.1.106", sysinfo_request);
               ("192.168.1.106", brightness_request (JInt 150))];
      today := (2017, 6) |}).
Proof. vm_compute. reflexivity. Qed.

(** ** Discovery *)

Section DiscoveryFacts.

Variable json_dumps : json -> list Z.
Variable initial_key : Z.

Let discover := Discover.discover json_dumps initial_key.

Lemma discover_devices protocol port events :
  Discover.devices (discover protocol port events) =
  fst (Discover.receive events ∅ None
         [Discover.DebugSending Discover.target port;
          Discover.DebugWaiting]).
Proof.
  unfold discover, Discover.discover.
  destruct (Discover.receive events ∅ None _); reflexivity.
Qed.


Lemma discover_sendto protocol port events :
  Discover.sendto (discover protocol port events) =
  [(drop 4 (Protocol.encrypt
              (match protocol with
               | None => Protocol.TPLinkSmartHomeProtocol initial_key
               | Some p => p
               end) (json_dumps Discover.discovery_query)),
    (Discover.target, port))].
Proof.
  unfold discover, Discover.discover.
  destruct (Discover.receive events ∅ None _); reflexivity.
Qed.

(** C9, as the code has it: the one datagram that discovery sends is
    the encoding that the protocol object gives for the request, without
    its first four bytes; with the wire codec that is the XOR chain of the
    payload alone, with no length prefix in front of it. *)
Theorem discovery_datagram_has_no_prefix protocol port events :
  let req := json_dumps Discover.discovery_query in
  Discover.sendto (discover (Some protocol) port events) =
    [(drop 4 (Protocol.encrypt protocol req), ("255.255.255.255", port))] /\
  Discover.sendto (discover None port events) =
    [(Protocol.xor_chain initial_key req, ("255.255.255.255", port))] /\
  Protocol.wire_encode initial_key req =
    Protocol.be32 (Z.of_nat (length req)) ++
    Protocol.xor_chain initial_key req /\
  length (Protocol.xor_chain initial_key req) = length req.
Proof.
  intros req. split; [|split; [|split]].
  - rewrite discover_sendto. reflexivity.
  - rewrite discover_sendto. reflexivity.
  - reflexivity.
  - generalize initial_key. induction req as [|c rest IH]; intros key.
    + reflexivity.
    + cbn. rewrite IH. reflexivity.
Qed.

End DiscoveryFacts.

(** The text that [json.dumps] gives for the discovery query, with the
    keys in the order of the source. *)
Definition quoted (s : string) : string :=
  String (ascii_of_nat 34) s ++ String (ascii_of_nat 34) EmptyString.

Definition discovery_text : string :=
  "{" ++ quoted "emeter" ++ ": {" ++ quoted "get_realtime" ++ ": null}, "
  ++ quoted "system" ++ ": {" ++ quoted "get_sysinfo" ++ ": null}}".

Definition bytes_of (s : string) : list Z :=
  (fun c => Z.of_nat (nat_of_ascii c)) <$> list_ascii_of_string s.

Definition dumps_query (_ : json) : list Z := bytes_of discovery_text.

(** C9 as stated fails for discovery: with the key 171 the wire encoding
    of the request has 71 bytes, the first four being the length 67; the
    datagram sent has the 67 bytes that follow them. *)
Lemma discovery_datagram_is_not_the_encoding :
  let req := dumps_query Discover.discovery_query in
  let sent_bytes :=
    (fst <$> Discover.sendto (Discover.discover dumps_query 171 None 9999 []))
  in
  sent_bytes <> [Protocol.wire_encode 171 req] /\
  length <$> sent_bytes = [67%nat] /\
  length (Protocol.wire_encode 171 req) = 71%nat /\
  take 4 (Protocol.wire_encode 171 req) = [0; 0; 0; 67].
Proof.
  intros req sent_bytes. split; [|split; [|split]].
  - intros H. apply (f_equal (fmap length)) in H. vm_compute in H.
    discriminate H.
  - vm_compute. reflexivity.
  - vm_compute. reflexivity.
  - vm_compute. reflexivity.
Qed.

(** *** A reply that does not parse *)

(** A datagram whose bytes do not decode to JSON. *)
Definition unparsable (a : string * Z) : Discover.recv :=
  Discover.Received {| Discover.parsed := None; Discover.addr := a |}.

Lemma turn_unparsable devices type a l :
  Discover.turn devices type
    {| Discover.parsed := None; Discover.addr := a |} l =
  (Raise ValueError, l).
Proof. reflexivity. Qed.








(** The reply of a plug, [{"system": {"get_sysinfo": {"type": t}}}]. *)
Definition sysinfo_datagram (t : string) (a : string * Z) : Discover.recv :=
  Discover.Received
    {| Discover.parsed :=
         Some (reply "system" "get_sysinfo" {[ "type" := JStr t ]});
       Discover.addr := a |}.



(** A reply without [system] is logged and not skipped: the turn goes on
    with the type left by the reply before it, or fails on the unbound
    variable when there is none. *)
Example reply_without_system_takes_previous_type :
  let plug := sysinfo_datagram "IOT.SMARTPLUGSWITCH" ("192.168.1.105", 9999) in
  let other :=
    Discover.Received
      {| Discover.parsed := Some (JObj {[ "error" := JStr "busy" ]});
         Discover.addr := ("192.168.1.9", 9999) |} in
  Discover.devices
    (Discover.discover dumps_query 171 None 9999 [plug; other]) =
    <["192.168.1.9" := plug_at "192.168.1.9"]>
      {[ "192.168.1.105" := plug_at "192.168.1.105" ]} /\
  Discover.devices
    (Discover.discover dumps_query 171 None 9999 [other; plug]) = ∅.
Proof. split; vm_compute; reflexivity. Qed.

(** *** Classification of the replies *)

(** The device type a system information declares: the field [type],
    else the field [mic_type], else unknown. *)
Definition declared_type (sysinfo : gmap string json) : json :=
  match sysinfo !! "type" with
  | Some t => t
  | None =>
      match sysinfo !! "mic_type" with
      | Some t => t
      | None => JStr "UNKNOWN"
      end
  end.

(** The family a declared type names, whatever the case of its letters. *)
Definition family_of (t : string) : option (string -> Device) :=
  if str_contains (lower_string t) "smartplug" then Some plug_at
  else if str_contains (lower_string t) "smartbulb" then Some bulb_at
  else None.

(** The device a reply from address [fst c] declaring type [snd c] stands
    for. *)
Definition instance_of (c : string * string) : option Device :=
  (fun mk => mk (fst c)) <$> family_of (snd c).

Definition record (devices : gmap string Device) (c : string * string)
    : gmap string Device :=
  match instance_of c with
  | Some dev => <[fst c := dev]> devices
  | None => devices
  end.

(** [ev] is a datagram from the address [fst c] that parses as a response
    with [system] and [get_sysinfo], declaring the type [snd c]. *)
Inductive sysinfo_from (ev : Discover.recv) (c : string * string) : Prop :=
| SysinfoFrom d (info system sysinfo : gmap string json) bytes :
    ev = Discover.Received d ->
    Discover.parsed d = Some (JObj info) ->
    info !! "system" = Some (JObj system) ->
    system !! "get_sysinfo" = Some (JObj sysinfo) ->
    declared_type sysinfo = JStr (snd c) ->
    fst (Discover.addr d) = fst c ->
    Socket.inet_pton (fst c) = Ok bytes ->
    sysinfo_from ev c.

Lemma init_plug ip bytes :
  Socket.inet_pton ip = Ok bytes -> SmartPlug.__init__ ip = Ok (plug_at ip).
Proof.
  intros H. unfold SmartPlug.__init__, SmartDevice.__init__, rbind.
  rewrite H. reflexivity.
Qed.

Lemma init_bulb ip bytes :
  Socket.inet_pton ip = Ok bytes -> SmartBulb.__init__ ip = Ok (bulb_at ip).
Proof.
  intros H. unfold SmartBulb.__init__, SmartDevice.__init__, rbind.
  rewrite H. reflexivity.
Qed.

Lemma turn_sysinfo devices type d c l :
  sysinfo_from (Discover.Received d) c ->
  exists l',
    Discover.turn devices type d l =
    (Ok (record devices c, Some (JStr (snd c))), l').
Proof.
  intros [d' info system sysinfo bytes Hev Hparsed Hsys Hget Hty Hip Hpton].
  injection Hev as <-. destruct c as [ip t]. cbn [fst snd] in *.
  assert (Hlower : exists l',
    (let* type :=
       (let* sysinfo := lift (getitem2 (JObj info) "system" "get_sysinfo") in
        let* has_type := lift (contains sysinfo "type") in
        if has_type then
          let* t := lift (getitem sysinfo "type") in ret (Some t)
        else
          let* has_mic_type := lift (contains sysinfo "mic_type") in
          if has_mic_type then
            let* t := lift (getitem sysinfo "mic_type") in ret (Some t)
          else
            let* _ := Discover.log Discover.ErrorNoTypeField in
            ret (Some (JStr "UNKNOWN"))) in
     ret type) l = (Ok (Some (JStr t)), l')).
  { unfold bind, lift, ret, getitem2, getitem, contains, rbind.
    rewrite Hsys, Hget. unfold declared_type in Hty.
    destruct (sysinfo !! "type") as [ty|] eqn:Htype.
    - rewrite bool_decide_eq_true_2 by (eexists; reflexivity).
      subst ty. eexists. reflexivity.
    - rewrite bool_decide_eq_false_2 by (intros [? ?]; congruence).
      destruct (sysinfo !! "mic_type") as [ty|] eqn:Hmic.
      + rewrite bool_decide_eq_true_2 by (eexists; reflexivity).
        subst ty. eexists. reflexivity.
      + rewrite bool_decide_eq_false_2 by (intros [? ?]; congruence).
        injection Hty as <-. eexists. reflexivity. }
  destruct Hlower as [l' Hl']. exists l'.
  unfold Discover.turn. rewrite Hparsed, Hip.
  unfold bind at 1. unfold lift at 1.
  unfold bind at 1. unfold lift at 1. unfold contains at 1.
  rewrite bool_decide_eq_true_2 by (eexists; exact Hsys).
  unfold bind at 1. unfold bind at 1. unfold lift at 1 2.
  unfold getitem at 1. rewrite Hsys. unfold contains at 1.
  rewrite bool_decide_eq_true_2 by (eexists; exact Hget).
  unfold bind at 1.
  unfold bind at 1 in Hl'. unfold ret at 4 in Hl'.
  match type of Hl' with
  | match ?x with _ => _ end = _ => destruct x as [[ty|e] l0] eqn:Hx
  end; [|discriminate Hl'].
  injection Hl' as -> ->.
  unfold bind, lift, ret, lower, record, instance_of, family_of.
  cbn [fst snd].
  destruct (str_contains (lower_string t) "smartplug").
  - rewrite (init_plug _ _ Hpton). reflexivity.
  - destruct (str_contains (lower_string t) "smartbulb").
    + rewrite (init_bulb _ _ Hpton). reflexivity.
    + reflexivity.
Qed.

Lemma receive_sysinfo events claims devices type l :
  Forall2 sysinfo_from events claims ->
  fst (Discover.receive events devices type l) =
  fold_left record claims devices.
Proof.
  intros H. revert devices type l.
  induction H as [|ev c events claims Hev _ IH]; intros devices type l.
  - reflexivity.
  - destruct Hev as [d info system sysinfo bytes -> Hp Hs Hg Ht Hi Hn].
    assert (Hfrom : sysinfo_from (Discover.Received d) c)
      by (econstructor; eauto).
    destruct (turn_sysinfo devices type d c l Hfrom) as [l' Hturn].
    cbn [Discover.receive fold_left]. rewrite Hturn. apply IH.
Qed.

Lemma lookup_recorded claims devices ip :
  fold_left record claims devices !! ip =
  match last (omap instance_of (filter (fun c => fst c = ip) claims)) with
  | Some dev => Some dev
  | None => devices !! ip
  end.
Proof.
  revert devices. induction claims as [|c claims IH]; intros devices.
  - reflexivity.
  - cbn [fold_left]. rewrite IH, filter_cons. unfold record.
    destruct (decide (fst c = ip)) as [Hc|Hc].
    + cbn [omap list_omap]. destruct (instance_of c) as [dev|].
      * rewrite last_cons.
        destruct (last (omap instance_of
                          (filter (fun c => fst c = ip) claims)));
          [reflexivity|].
        rewrite Hc. apply lookup_insert_eq.
      * reflexivity.
    + destruct (last (omap instance_of
                        (filter (fun c => fst c = ip) claims)));
        [reflexivity|].
      destruct (instance_of c); [|reflexivity].
      apply lookup_insert_ne. exact Hc.
Qed.

Lemma receive_sysinfo_then events claims rest devices type l :
  Forall2 sysinfo_from events claims ->
  exists type' l',
    Discover.receive (events ++ rest) devices type l =
    Discover.receive rest (fold_left record claims devices) type' l'.
Proof.
  intros H. revert devices type l.
  induction H as [|ev c events claims Hev _ IH]; intros devices type l.
  - exists type, l. reflexivity.
  - destruct Hev as [d info system sysinfo bytes -> Hp Hs Hg Ht Hi Hn].
    assert (Hfrom : sysinfo_from (Discover.Received d) c)
      by (econstructor; eauto).
    destruct (turn_sysinfo devices type d c l Hfrom) as [l1 Hturn].
    cbn [app Discover.receive fold_left]. rewrite Hturn. apply IH.
Qed.

(** C4, as the code has it: a reply is classified when the receive loop
    reaches it.  From whatever state the loop is in, replies that parse as
    a response with [system]/[get_sysinfo] have their declared type read
    ([type], else [mic_type]) and matched in lower case against
    [smartplug] and [smartbulb]; each match files a plug or a bulb under
    the address the reply came from, a later match from an address
    replacing the earlier one, and the loop goes on with the replies that
    follow.  When all the replies of a run are such, the mapping returned
    holds for each address the device of its last reply that matched. *)
Theorem discovery_classifies_replies
    (json_dumps : json -> list Z) (initial_key : Z)
    (protocol : option Protocol.t) (port : Z)
    (events rest : list Discover.recv) (claims : list (string * string))
    (devices : gmap string Device) (type : option json)
    (l : list Discover.log_record) :
  Forall2 sysinfo_from events claims ->
  let found :=
    Discover.devices
      (Discover.discover json_dumps initial_key protocol port events) in
  (exists type' l',
     Discover.receive (events ++ rest) devices type l =
     Discover.receive rest (fold_left record claims devices) type' l') /\
  (forall ip,
     fold_left record claims devices !! ip =
     match last (omap instance_of (filter (fun c => fst c = ip) claims)) with
     | Some dev => Some dev
     | None => devices !! ip
     end) /\
  found = fold_left record claims ∅ /\
  forall ip,
    found !! ip =
    last (omap instance_of (filter (fun c => fst c = ip) claims)).
Proof.
  intros H found.
  assert (Hfound : found = fold_left record claims ∅).
  { unfold found. rewrite discover_devices. apply receive_sysinfo, H. }
  split; [exact (receive_sysinfo_then events claims rest devices type l H)|].
  split; [intros ip; apply lookup_recorded|].
  split; [exact Hfound|].
  intros ip. rewrite Hfound, lookup_recorded.
  destruct (last (omap instance_of (filter (fun c => fst c = ip) claims)));
    [reflexivity|apply lookup_empty].
Qed.

(** A bulb that declares itself in the legacy field, in lower case. *)
Definition legacy_datagram (t : string) (a : string * Z) : Discover.recv :=
  Discover.Received
    {| Discover.parsed :=
         Some (reply "system" "get_sysinfo" {[ "mic_type" := JStr t ]});
       Discover.addr := a |}.

Lemma sysinfo_datagram_from t ip port bytes :
  Socket.inet_pton ip = Ok bytes ->
  sysinfo_from (sysinfo_datagram t (ip, port)) (ip, t).
Proof.
  intros H.
  apply (SysinfoFrom _ (ip, t) _
           {[ "system" := JObj {[ "get_sysinfo" := JObj {[ "type" := JStr t ]} ]} ]}
           {[ "get_sysinfo" := JObj {[ "type" := JStr t ]} ]}
           {[ "type" := JStr t ]} bytes eq_refl); try reflexivity.
  exact H.
Qed.

Lemma legacy_datagram_from t ip port bytes :
  Socket.inet_pton ip = Ok bytes ->
  sysinfo_from (legacy_datagram t (ip, port)) (ip, t).
Proof.
  intros H.
  apply (SysinfoFrom _ (ip, t) _
           {[ "system" :=
                JObj {[ "get_sysinfo" := JObj {[ "mic_type" := JStr t ]} ]} ]}
           {[ "get_sysinfo" := JObj {[ "mic_type" := JStr t ]} ]}
           {[ "mic_type" := JStr t ]} bytes eq_refl); try reflexivity.
  exact H.
Qed.

Lemma discovery_classifies_replies_witness :
  let events :=
    [sysinfo_datagram "IOT.SMARTPLUGSWITCH" ("192.168.1.105", 9999);
     legacy_datagram "iot.smartbulb" ("192.168.1.106", 9999);
     sysinfo_datagram "IOT.SMARTBULB" ("192.168.1.105", 9999)] in
  let claims :=
    [("192.168.1.105", "IOT.SMARTPLUGSWITCH");
     ("192.168.1.106", "iot.smartbulb");
     ("192.168.1.105", "IOT.SMARTBULB")] in
  Forall2 sysinfo_from events claims /\
  Discover.devices (Discover.discover dumps_query 171 None 9999 events) =
    <["192.168.1.105" := bulb_at "192.168.1.105"]>
      {[ "192.168.1.106" := bulb_at "192.168.1.106" ]}.
Proof.
  intros events claims.
  assert (H : Forall2 sysinfo_from events claims).
  { repeat constructor.
    - exact (sysinfo_datagram_from _ _ _ _ inet_pton_accepts).
    - apply (legacy_datagram_from _ _ _ [192; 168; 1; 106]). reflexivity.
    - exact (sysinfo_datagram_from _ _ _ _ inet_pton_accepts). }
  split; [exact H|].
  etransitivity;
    [exact (proj1 (proj2 (proj2
       (discovery_classifies_replies dumps_query 171 None 9999
          events [] claims ∅ None [] H))))|].
  vm_compute. reflexivity.
Defined.

(** C4 as stated fails for a reply that the loop does not reach: the bulb
    at 192.168.1.105 answers after a datagram that does not parse, and the
    entry of the plug that answered first from that address is not
    replaced; without that datagram it is. *)
Lemma later_reply_not_classified_after_failure :
  let plug := sysinfo_datagram "IOT.SMARTPLUGSWITCH" ("192.168.1.105", 9999) in
  let bulb := legacy_datagram "IOT.SMARTBULB" ("192.168.1.105", 9999) in
  Discover.devices
    (Discover.discover dumps_query 171 None 9999
       [plug; unparsable ("192.168.1.7", 9999); bulb]) =
    {[ "192.168.1.105" := plug_at "192.168.1.105" ]} /\
  Discover.devices
    (Discover.discover dumps_query 171 None 9999 [plug; bulb]) =
    {[ "192.168.1.105" := bulb_at "192.168.1.105" ]}.
Proof. split; vm_compute; reflexivity. Qed.

(** * The rest of the device model *)

(** ** More of Python *)

Definition upper_ascii (c : ascii) : ascii :=
  let n := nat_of_ascii c in
  if ((97 <=? n) && (n <=? 122))%nat then ascii_of_nat (n - 32) else c.

(** [s.upper()]; as for [lower], letters beyond ASCII are left as they
    are: none of them has [O], [N] or [F] as its capital. *)
Fixpoint upper_string (s : string) : string :=
  match s with
  | EmptyString => EmptyString
  | String c s' => String (upper_ascii c) (upper_string s')
  end.

(** [v == n] for an integer [n]. *)
Definition eq_int (v : json) (n : Z) : bool := key_eqb v (JInt n).

(** [1 - v]. *)
Definition one_minus (v : json) : result json :=
  match v with
  | JInt z => Ok (JInt (1 - z))
  | JBool b => Ok (JInt (1 - int_of_bool b))
  | JFloat f =>
      let? one := float_of_int 1 in
      Ok (JFloat (SFsub prec emax one f))
  | _ => Raise TypeError
  end.

(** An argument that the C code of [datetime] takes as a C [int]: an
    integer in range, a [bool] as the integer it is. *)
Definition c_int (v : json) : result Z :=
  match v with
  | JInt z =>
      if (- 2 ^ 31 <=? z) && (z <? 2 ^ 31) then Ok z else Raise OverflowError
  | JBool b => Ok (int_of_bool b)
  | _ => Raise TypeError
  end.

Definition is_leap (y : Z) : bool :=
  (y mod 4 =? 0) && (negb (y mod 100 =? 0) || (y mod 400 =? 0)).

Definition days_in_month (y m : Z) : Z :=
  if m =? 2 then (if is_leap y then 29 else 28)
  else if (m =? 4) || (m =? 6) || (m =? 9) || (m =? 11) then 30
  else 31.

Record datetime : Type := mkDatetime {
  dt_year : Z; dt_month : Z; dt_day : Z;
  dt_hour : Z; dt_minute : Z; dt_second : Z
}.

(** [datetime.datetime(year, month, day, hour, minute, second)]: the
    arguments are converted in order, then the date is checked, then the
    time. *)
Definition make_datetime (year month day hour minute second : json)
    : result datetime :=
  let? y := c_int year in
  let? m := c_int month in
  let? d := c_int day in
  let? hh := c_int hour in
  let? mm := c_int minute in
  let? ss := c_int second in
  if negb ((1 <=? y) && (y <=? 9999)) then Raise ValueError
  else if negb ((1 <=? m) && (m <=? 12)) then Raise ValueError
  else if negb ((1 <=? d) && (d <=? days_in_month y m)) then Raise ValueError
  else if negb ((0 <=? hh) && (hh <=? 23)) then Raise ValueError
  else if negb ((0 <=? mm) && (mm <=? 59)) then Raise ValueError
  else if negb ((0 <=? ss) && (ss <=? 59)) then Raise ValueError
  else Ok (mkDatetime y m d hh mm ss).

(** [try: c except SmartDeviceException: return a]. *)
Definition except_device_error {A} (a : A) (c : M A) : M A :=
  fun w =>
    match c w with
    | (Raise (SmartDeviceException _), w') => (Ok a, w')
    | r => r
    end.

(** ** smartdevice.py: information read from the device *)

Module DeviceInfo.

(** The [time] property. *)
Definition time (self : Device) : M (option datetime) :=
  except_device_error None
    (let* res := SmartDevice._query_helper self "time" "get_time" None in
     let* year := lift (getitem res "year") in
     let* month := lift (getitem res "month") in
     let* mday := lift (getitem res "mday") in
     let* hour := lift (getitem res "hour") in
     let* min := lift (getitem res "min") in
     let* sec := lift (getitem res "sec") in
     let* t := lift (make_datetime year month mday hour min sec) in
     ret (Some t)).

Definition hw_keys : list string :=
  ["sw_ver"; "hw_ver"; "mac"; "mic_mac"; "type"; "mic_type"; "hwId"; "fwId";
   "oemId"; "dev_name"].

(** The [hw_info] property:
    [dict((key, info[key]) for key in keys if key in info)]. *)
Definition hw_info (self : Device) : M (gmap string json) :=
  let* info := SmartDevice.sys_info self in
  ret (fold_left
         (fun d key =>
            match info !! key with
            | Some v => <[key := v]> d
            | None => d
            end)
         hw_keys ∅).

(** The [rssi] property: the system information is fetched once for the
    test and once more for the value. *)
Definition rssi (self : Device) : M (option Z) :=
  let* info := SmartDevice.sys_info self in
  if bool_decide (is_Some (info !! "rssi")) then
    let* info := SmartDevice.sys_info self in
    let* r := lift (int (SmartDevice.sys_info_get info "rssi")) in
    ret (Some r)
  else ret None.

End DeviceInfo.

(** ** smartplug.py: relay and LED *)

Module PlugControl.

Definition SWITCH_STATE_ON : string := "ON".
Definition SWITCH_STATE_OFF : string := "OFF".
Definition SWITCH_STATE_UNKNOWN : string := "UNKNOWN".

(** The [state] property of a plug. *)
Definition state (self : Device) : M string :=
  let* info := SmartDevice.sys_info self in
  let relay_state := SmartDevice.sys_info_get info "relay_state" in
  if eq_int relay_state 0 then ret SWITCH_STATE_OFF
  else if eq_int relay_state 1 then ret SWITCH_STATE_ON
  else ret SWITCH_STATE_UNKNOWN.

Definition turn_on (self : Device) : M unit :=
  let* _ :=
    SmartDevice._query_helper self "system" "set_relay_state"
      (Some (JObj {[ "state" := JInt 1 ]})) in
  ret tt.

Definition turn_off (self : Device) : M unit :=
  let* _ :=
    SmartDevice._query_helper self "system" "set_relay_state"
      (Some (JObj {[ "state" := JInt 0 ]})) in
  ret tt.

(** The setter of [state]: [value] is whatever the caller assigns. *)
Definition set_state (self : Device) (value : json) : M unit :=
  match value with
  | JStr s =>
      if String.eqb (upper_string s) SWITCH_STATE_ON then turn_on self
      else if String.eqb (upper_string s) SWITCH_STATE_OFF then turn_off self
      else raise ValueError
  | _ => raise ValueError
  end.

(** The [led] property. *)
Definition led (self : Device) : M bool :=
  let* info := SmartDevice.sys_info self in
  let* d := lift (one_minus (SmartDevice.sys_info_get info "led_off")) in
  ret (truth d).

(** The setter of [led]. *)
Definition set_led (self : Device) (state : json) : M unit :=
  let* _ :=
    SmartDevice._query_helper self "system" "set_led_off"
      (Some (JObj {[ "off" := JInt (int_of_bool (negb (truth state))) ]})) in
  ret tt.

End PlugControl.

(** ** smartbulb.py: switching the bulb *)

Module BulbControl.

(** The setter of [state]. *)
Definition set_state (self : Device) (bulb_state : json) : M unit :=
  let* new_state :=
    lift (if is_str SmartBulb.BULB_STATE_ON bulb_state then Ok 1
          else if is_str SmartBulb.BULB_STATE_OFF bulb_state then Ok 0
          else Raise ValueError) in
  let* _ :=
    SmartBulb.set_light_state self (JObj {[ "on_off" := JInt new_state ]}) in
  ret tt.

Definition turn_off (self : Device) : M unit :=
  set_state self (JStr SmartBulb.BULB_STATE_OFF).

Definition turn_on (self : Device) : M unit :=
  set_state self (JStr SmartBulb.BULB_STATE_ON).

End BulbControl.

(** ** smartdevice.py: toggling

    [is_on], [turn_on] and [turn_off] raise [NotImplementedError] in
    [SmartDevice] and are overridden by both device classes. *)

Definition is_on (self : Device) : M bool :=
  match cls self with
  | BaseDevice => raise NotImplementedError
  | Plug => SmartPlug.is_on self
  | Bulb => SmartBulb.is_on self
  end.

Definition turn_on (self : Device) : M unit :=
  match cls self with
  | BaseDevice => raise NotImplementedError
  | Plug => PlugControl.turn_on self
  | Bulb => BulbControl.turn_on self
  end.

Definition turn_off (self : Device) : M unit :=
  match cls self with
  | BaseDevice => raise NotImplementedError
  | Plug => PlugControl.turn_off self
  | Bulb => BulbControl.turn_off self
  end.

Definition is_off (self : Device) : M bool :=
  let* on := is_on self in
  ret (negb on).

Definition toggle (self : Device) : M unit :=
  let* off := is_off self in
  if off then turn_on self else turn_off self.

(** * More properties *)

(** ** What the query helper can do *)

Lemma contains_raises c k e : contains c k = Raise e -> e = TypeError.
Proof. destruct c; cbn; congruence. Qed.

Lemma getitem_raises c k e :
  getitem c k = Raise e -> e = TypeError \/ e = KeyError k.
Proof.
  destruct c as [| | | | | |m]; cbn; try (intros [= <-]; left; reflexivity).
  destruct (m !! k); [discriminate|]. intros [= <-]. right. reflexivity.
Qed.

Lemma delitem_outcome c k :
  match delitem c k with
  | Ok r => exists m, r = JObj m /\ m !! k = None
  | Raise e => e = TypeError \/ e = KeyError k
  end.
Proof.
  destruct c as [| | | | | |m]; cbn; try (left; reflexivity).
  destruct (m !! k); [|right; reflexivity].
  eexists. split; [reflexivity|]. apply lookup_delete_eq.
Qed.

(** The exceptions of the helper, and the shape of its results. *)
Definition helper_outcome (r : result json) : Prop :=
  match r with
  | Ok v => exists m, v = JObj m /\ m !! "err_code" = None
  | Raise (SmartDeviceException _) => True
  | Raise (KeyError _) => True
  | Raise TypeError => True
  | Raise _ => False
  end.

Lemma validate_outcome target cmd response :
  helper_outcome (validate target cmd response).
Proof.
  unfold validate, rbind.
  destruct (contains response target) as [present|e] eqn:Hc.
  2: { apply contains_raises in Hc. subst e. exact I. }
  destruct present; cbn [negb]; [|exact I].
  destruct (getitem response target) as [ns|e] eqn:Hg.
  2: { apply getitem_raises in Hg as [->| ->]; exact I. }
  destruct (contains ns "err_code") as [has|e] eqn:Hc2.
  2: { apply contains_raises in Hc2. subst e. exact I. }
  assert (Htail : helper_outcome
            (match getitem ns cmd with
             | Ok a => delitem a "err_code"
             | Raise e => Raise e
             end)).
  { destruct (getitem ns cmd) as [inner|e] eqn:Hg2.
    2: { apply getitem_raises in Hg2 as [->| ->]; exact I. }
    pose proof (delitem_outcome inner "err_code") as Hd.
    destruct (delitem inner "err_code") as [r|e]; [exact Hd|].
    destruct Hd as [->| ->]; exact I. }
  destruct has.
  - destruct (getitem ns "err_code") as [code|e] eqn:Hg3.
    2: { apply getitem_raises in Hg3 as [->| ->]; exact I. }
    destruct (ne_zero code); [exact I|exact Htail].
  - exact Htail.
Qed.

(** X1: whatever the device answers, a call of [_query_helper] either
    returns a dict that has no key [err_code], or raises
    [SmartDeviceException], [KeyError] or [TypeError], and nothing
    else. *)
Theorem query_helper_outcomes self target cmd arg w :
  helper_outcome (fst (SmartDevice._query_helper self target cmd arg w)).
Proof.
  rewrite query_helper_run. cbn [fst].
  destruct (script w) as [|[e|response] rest]; try exact I.
  apply validate_outcome.
Qed.

(** X2: a call of [_query_helper] is one exchange, whatever its outcome:
    exactly one request, [{target: {cmd: arg}}] with [{}] for an argument
    that is missing or [None], goes to the address of the device, and
    nothing is sent again after a failure. *)
Theorem query_helper_one_exchange self target cmd arg w :
  snd (SmartDevice._query_helper self target cmd arg w) =
  {| script := tail (script w);
     sent := sent w ++
       [(ip_address self,
         JObj {[ target :=
           JObj {[ cmd := match arg with
                          | None | Some JNull => JObj ∅
                          | Some a => a
                          end ]} ]})];
     today := today w |}.
Proof. rewrite query_helper_run. reflexivity. Qed.

(** A light state given as [None] goes out as [{}]. *)
Example none_is_sent_as_empty_dict :
  sent (snd (SmartBulb.set_light_state (bulb_at "192.168.1.106") JNull
               (answers []))) =
  [("192.168.1.106",
    request SmartBulb.lightingservice "transition_light_state" (JObj ∅))].
Proof. vm_compute. reflexivity. Qed.

(** X3: every failure of the transport, and a device that does not answer,
    surface as the same [SmartDeviceException] for a communication error,
    whatever the exception was. *)
Theorem transport_failure_is_communication_error self target cmd arg w :
  (forall response rest, script w <> inr response :: rest) ->
  fst (SmartDevice._query_helper self target cmd arg w) =
  Raise (SmartDeviceException CommunicationError).
Proof.
  intros H. rewrite query_helper_run. cbn [fst].
  destruct (script w) as [|[e|response] rest]; try reflexivity.
  exfalso. exact (H response rest eq_refl).
Qed.

Lemma transport_failure_is_communication_error_witness :
  let w := {| script := [inl socket_error]; sent := []; today := (2017, 6) |}
  in
  (forall response rest, script w <> inr response :: rest) /\
  fst (SmartDevice._query_helper (plug_at "192.168.1.105") "system"
         "get_sysinfo" None w)
  = Raise (SmartDeviceException CommunicationError).
Proof.
  intros w.
  assert (H : forall response rest, script w <> inr response :: rest)
    by (intros response rest; discriminate).
  split; [exact H|].
  exact (transport_failure_is_communication_error _ _ _ _ w H).
Defined.

(** X4: a response that is a dict without the requested namespace raises
    [SmartDeviceException] naming the namespace and carrying the whole
    response. *)
Theorem missing_namespace_is_reported self target cmd arg w
    (resp : gmap string json) rest :
  script w = inr (JObj resp) :: rest ->
  resp !! target = None ->
  fst (SmartDevice._query_helper self target cmd arg w) =
  Raise (SmartDeviceException (NoRequiredInResponse target (JObj resp))).
Proof.
  intros Hw Hnone. rewrite query_helper_run, Hw. cbn [fst].
  unfold validate, contains, rbind.
  rewrite bool_decide_eq_false_2 by (intros [? ?]; congruence).
  reflexivity.
Qed.

Lemma missing_namespace_is_reported_witness :
  let resp : gmap string json :=
    {[ "system" := JObj {[ "get_sysinfo" := JObj {[ "err_code" := JInt 0 ]} ]} ]}
  in
  script (answers [JObj resp]) = [inr (JObj resp)] /\
  resp !! "emeter" = None /\
  fst (SmartDevice._query_helper (plug_at "192.168.1.105") "emeter"
         "get_realtime" None (answers [JObj resp]))
  = Raise (SmartDeviceException (NoRequiredInResponse "emeter" (JObj resp))).
Proof.
  intros resp.
  assert (H1 : script (answers [JObj resp]) = [inr (JObj resp)])
    by reflexivity.
  assert (H2 : resp !! "emeter" = None) by reflexivity.
  split; [exact H1|]. split; [exact H2|].
  exact (missing_namespace_is_reported _ "emeter" "get_realtime" None _ _ _
           H1 H2).
Defined.

(** The reply of a plug without the module:
    [{"emeter": {"err_code": -1, "err_msg": "module not support"}}]. *)
Definition module_not_supported : gmap string json :=
  <["err_code" := JInt (-1)]> {[ "err_msg" := JStr "module not support" ]}.

(** X5: a nonzero integer [err_code] that stands in the namespace object
    itself raises [SmartDeviceException] with the namespace, the command
    and the namespace object. *)
Theorem namespace_error_is_reported self target cmd arg w
    (resp ns : gmap string json) n rest :
  script w = inr (JObj resp) :: rest ->
  resp !! target = Some (JObj ns) ->
  ns !! "err_code" = Some (JInt n) ->
  n <> 0 ->
  fst (SmartDevice._query_helper self target cmd arg w) =
  Raise (SmartDeviceException (ErrorOn target cmd (JObj ns))).
Proof.
  intros Hw Hns Hcode Hn. rewrite query_helper_run, Hw. cbn [fst].
  rewrite (validate_namespace _ _ _ _ Hns). unfold namespace_ok.
  rewrite Hcode. cbn [ne_zero].
  destruct (Z.eqb_spec n 0) as [->|_]; [contradiction|reflexivity].
Qed.

Lemma namespace_error_is_reported_witness :
  let resp : gmap string json := {[ "emeter" := JObj module_not_supported ]} in
  script (answers [JObj resp]) = [inr (JObj resp)] /\
  resp !! "emeter" = Some (JObj module_not_supported) /\
  module_not_supported !! "err_code" = Some (JInt (-1)) /\
  -1 <> 0 /\
  fst (SmartDevice._query_helper (plug_at "192.168.1.105") "emeter"
         "get_realtime" None (answers [JObj resp]))
  = Raise (SmartDeviceException
             (ErrorOn "emeter" "get_realtime" (JObj module_not_supported))).
Proof.
  intros resp.
  assert (H1 : script (answers [JObj resp]) = [inr (JObj resp)])
    by reflexivity.
  assert (H2 : resp !! "emeter" = Some (JObj module_not_supported))
    by reflexivity.
  assert (H3 : module_not_supported !! "err_code" = Some (JInt (-1)))
    by reflexivity.
  assert (H4 : -1 <> 0) by lia.
  split; [exact H1|]. split; [exact H2|]. split; [exact H3|].
  split; [exact H4|].
  exact (namespace_error_is_reported _ "emeter" "get_realtime" None _ _ _ _ _
           H1 H2 H3 H4).
Defined.

(** ** The clock of the device *)

Definition time_request : json := request "time" "get_time" (JObj ∅).

(** What [time] makes of the result of its query. *)
Definition read_time (res : json) : result (option datetime) :=
  let? year := getitem res "year" in
  let? month := getitem res "month" in
  let? mday := getitem res "mday" in
  let? hour := getitem res "hour" in
  let? min := getitem res "min" in
  let? sec := getitem res "sec" in
  let? t := make_datetime year month mday hour min sec in
  Ok (Some t).

Definition plain (e : exn) : Prop :=
  match e with
  | SmartDeviceException _ => False
  | _ => True
  end.

Lemma c_int_raises v e : c_int v = Raise e -> plain e.
Proof.
  destruct v; cbn; try (intros [= <-]; exact I).
  destruct (_ && _); [discriminate|]. intros [= <-]. exact I.
Qed.

Lemma make_datetime_raises y m d hh mm ss e :
  make_datetime y m d hh mm ss = Raise e -> plain e.
Proof.
  unfold make_datetime, rbind.
  repeat match goal with
  | |- context [match c_int ?v with _ => _ end] =>
      let H := fresh in
      destruct (c_int v) eqn:H; [|intros [= <-]; exact (c_int_raises _ _ H)]
  end.
  repeat match goal with
  | |- context [if negb ?b then _ else _] =>
      destruct b; cbn [negb]; [|intros [= <-]; exact I]
  end.
  discriminate.
Qed.

Lemma read_time_outcome res :
  match read_time res with
  | Ok None => False
  | Ok (Some _) => True
  | Raise e => plain e
  end.
Proof.
  unfold read_time, rbind.
  repeat match goal with
  | |- context [match getitem ?c ?k with _ => _ end] =>
      let H := fresh in
      destruct (getitem c k) eqn:H;
        [|apply getitem_raises in H as [->| ->]; exact I]
  end.
  match goal with
  | |- context [match make_datetime ?a ?b ?c ?d ?e ?f with _ => _ end] =>
      let H := fresh in
      destruct (make_datetime a b c d e f) eqn:H;
        [exact I|exact (make_datetime_raises _ _ _ _ _ _ _ H)]
  end.
Qed.

Lemma time_run self w :
  DeviceInfo.time self w =
  match SmartDevice._query_helper self "time" "get_time" None w with
  | (Ok res, w1) => (read_time res, w1)
  | (Raise (SmartDeviceException _), w1) => (Ok None, w1)
  | (Raise e, w1) => (Raise e, w1)
  end.
Proof.
  unfold DeviceInfo.time, except_device_error. unfold bind at 1.
  destruct (SmartDevice._query_helper self "time" "get_time" None w)
    as [[res|e] w1].
  - pose proof (read_time_outcome res) as Hout. revert Hout.
    unfold read_time, bind, lift, ret, rbind.
    repeat match goal with
    | |- context [match getitem ?c ?k with _ => _ end] =>
        destruct (getitem c k) as [?|[]]; try contradiction;
          try (intros _; reflexivity)
    end.
    match goal with
    | |- context [match make_datetime ?a ?b ?c ?d ?e ?f with _ => _ end] =>
        destruct (make_datetime a b c d e f) as [?|[]]; try contradiction;
          intros _; reflexivity
    end.
  - destruct e; reflexivity.
Qed.

(** X6: [time] never raises [SmartDeviceException]: it returns [None]
    exactly when the query helper raised one (no answer, no [time]
    namespace, an error code in it), and in every case its one request is
    the [get_time] query. *)
Theorem time_swallows_device_errors self w :
  (forall e, fst (DeviceInfo.time self w) <> Raise (SmartDeviceException e)) /\
  (fst (DeviceInfo.time self w) = Ok None <->
   exists e, fst (SmartDevice._query_helper self "time" "get_time" None w)
             = Raise (SmartDeviceException e)) /\
  sent (snd (DeviceInfo.time self w)) =
    sent w ++ [(ip_address self, time_request)].
Proof.
  rewrite time_run.
  pose proof (query_helper_one_exchange self "time" "get_time" None w) as Hw.
  destruct (SmartDevice._query_helper self "time" "get_time" None w)
    as [[res|e] w1]; cbn [fst snd] in *; subst w1.
  - pose proof (read_time_outcome res) as Hout.
    destruct (read_time res) as [[t|]|e]; try contradiction.
    + split; [intros; discriminate|]. split; [|reflexivity].
      split; [discriminate|intros [? ?]; discriminate].
    + split; [intros e' [= ->]; exact Hout|]. split; [|reflexivity].
      split; [discriminate|intros [? ?]; discriminate].
  - destruct e;
      (split; [intros; discriminate|]); (split; [|reflexivity]);
      try (split; [discriminate|intros [? [= ]]]).
    split; [intros _; eexists; reflexivity|reflexivity].
Qed.

(** A reply with a valid date is returned as that date, one with the
    thirtieth of February raises [ValueError]. *)
Example time_reads_the_date :
  let date (mday : Z) : gmap string json :=
    <["err_code" := JInt 0]>
    (<["year" := JInt 2017]> (<["month" := JInt 2]> (<["mday" := JInt mday]>
    (<["hour" := JInt 23]> (<["min" := JInt 59]> (<["sec" := JInt 7]> ∅))))))
  in
  fst (DeviceInfo.time (plug_at "192.168.1.105")
         (answers [reply "time" "get_time" (date 28)]))
    = Ok (Some (mkDatetime 2017 2 28 23 59 7)) /\
  fst (DeviceInfo.time (plug_at "192.168.1.105")
         (answers [reply "time" "get_time" (date 30)]))
    = Raise ValueError.
Proof. split; vm_compute; reflexivity. Qed.

(** ** Hardware information and signal strength *)

Lemma hw_info_fold (info d : gmap string json) (keys : list string) k :
  fold_left
    (fun d key =>
       match info !! key with
       | Some v => <[key := v]> d
       | None => d
       end) keys d !! k =
  if bool_decide (k ∈ keys) then
    match info !! k with
    | Some v => Some v
    | None => d !! k
    end
  else d !! k.
Proof.
  revert d. induction keys as [|key keys IH]; intros d.
  - reflexivity.
  - cbn [fold_left]. rewrite IH.
    destruct (decide (k ∈ keys)) as [Hin|Hin].
    + rewrite !bool_decide_eq_true_2 by (try right; exact Hin).
      destruct (info !! k) as [v|] eqn:Hk; [reflexivity|].
      destruct (info !! key) as [v'|] eqn:Hkey; [|reflexivity].
      apply lookup_insert_ne. intros ->. congruence.
    + rewrite (bool_decide_eq_false_2 (k ∈ keys)) by exact Hin.
      destruct (decide (k = key)) as [->|Hne].
      * rewrite bool_decide_eq_true_2 by left.
        destruct (info !! key) as [v'|]; [apply lookup_insert_eq|reflexivity].
      * rewrite bool_decide_eq_false_2
          by (intros H; apply elem_of_cons in H as [H|H]; contradiction).
        destruct (info !! key) as [v'|]; [|reflexivity].
        apply lookup_insert_ne. congruence.
Qed.

(** X7: [hw_info] is the system information restricted to the ten hardware
    keys: a key of the list has the value the device reported, when it
    reported one; every other key, [err_code] and the state of the relay
    among them, is absent. *)
Theorem hw_info_restricts_sysinfo self w (si : gmap string json) code rest :
  script w = inr (reply "system" "get_sysinfo" si) :: rest ->
  si !! "err_code" = Some code ->
  exists hw,
    fst (DeviceInfo.hw_info self w) = Ok hw /\
    forall k,
      hw !! k = if bool_decide (k ∈ DeviceInfo.hw_keys) then si !! k else None.
Proof.
  intros Hw Hcode. unfold DeviceInfo.hw_info, bind.
  rewrite (sys_info_reply _ _ _ _ _ Hw Hcode). unfold ret. cbn [fst].
  eexists. split; [reflexivity|]. intros k. rewrite hw_info_fold.
  destruct (bool_decide (k ∈ DeviceInfo.hw_keys)) eqn:Hin; [|reflexivity].
  apply bool_decide_eq_true_1 in Hin.
  assert (Hk : k <> "err_code").
  { intros ->. unfold DeviceInfo.hw_keys in Hin.
    repeat (apply elem_of_cons in Hin as [Hin|Hin]; [discriminate|]).
    apply elem_of_nil in Hin. exact Hin. }
  rewrite lookup_delete_ne by congruence.
  destruct (si !! k); reflexivity.
Qed.

Definition plug_sysinfo : gmap string json :=
  <["err_code" := JInt 0]>
  (<["sw_ver" := JStr "1.0.8"]>
  (<["mac" := JStr "50:C7:BF:00:00:01"]>
  (<["relay_state" := JInt 1]>
  (<["led_off" := JInt 0]>
  (<["rssi" := JInt (-61)]>
  (<["feature" := JStr "TIM:ENE"]> ∅)))))).

Lemma hw_info_restricts_sysinfo_witness :
  let w := answers [reply "system" "get_sysinfo" plug_sysinfo] in
  plug_sysinfo !! "err_code" = Some (JInt 0) /\
  fst (DeviceInfo.hw_info (plug_at "192.168.1.105") w) =
    Ok (<["sw_ver" := JStr "1.0.8"]> {[ "mac" := JStr "50:C7:BF:00:00:01" ]}).
Proof.
  intros w.
  assert (Hw : script w = inr (reply "system" "get_sysinfo" plug_sysinfo) :: [])
    by reflexivity.
  assert (Hcode : plug_sysinfo !! "err_code" = Some (JInt 0)) by reflexivity.
  split; [exact Hcode|].
  destruct (hw_info_restricts_sysinfo (plug_at "192.168.1.105") w _ _ _
              Hw Hcode) as (hw & Hhw & _).
  etransitivity; [exact Hhw|].
  rewrite <- Hhw. vm_compute. reflexivity.
Defined.

(** X8: [rssi] asks for the system information once when the field is
    absent, and returns [None]; when it is present it asks a second time
    and converts with [int] the field of the second answer, so that a
    device that reports the same information twice gives its signal
    strength after two requests. *)
Theorem rssi_fetches_twice self w (si si' : gmap string json) code code' rest :
  script w =
    inr (reply "system" "get_sysinfo" si)
    :: inr (reply "system" "get_sysinfo" si') :: rest ->
  si !! "err_code" = Some code ->
  si' !! "err_code" = Some code' ->
  DeviceInfo.rssi self w =
  match si !! "rssi" with
  | None =>
      (Ok None,
       {| script := inr (reply "system" "get_sysinfo" si') :: rest;
          sent := sent w ++ [(ip_address self, sysinfo_request)];
          today := today w |})
  | Some _ =>
      ((let? r := int (SmartDevice.sys_info_get si' "rssi") in Ok (Some r)),
       {| script := rest;
          sent := sent w ++ [(ip_address self, sysinfo_request);
                             (ip_address self, sysinfo_request)];
          today := today w |})
  end.
Proof.
  intros Hw Hcode Hcode'. unfold DeviceInfo.rssi. unfold bind at 1.
  rewrite (sys_info_reply _ _ _ _ _ Hw Hcode).
  rewrite lookup_delete_ne by discriminate.
  destruct (si !! "rssi") as [v|] eqn:Hrssi.
  - rewrite bool_decide_eq_true_2 by (eexists; reflexivity).
    unfold bind at 1.
    assert (Hw1 : script (after w (ip_address self) sysinfo_request) =
                  inr (reply "system" "get_sysinfo" si') :: rest)
      by (unfold after; cbn [script]; rewrite Hw; reflexivity).
    rewrite (sys_info_reply _ _ _ _ _ Hw1 Hcode').
    rewrite sys_info_get_delete by discriminate.
    unfold bind, lift, ret, rbind, after. cbn [script sent today].
    rewrite Hw. cbn [tail]. rewrite <- app_assoc.
    destruct (int (SmartDevice.sys_info_get si' "rssi")); reflexivity.
  - rewrite bool_decide_eq_false_2 by (intros [? ?]; congruence).
    unfold ret, after. rewrite Hw. reflexivity.
Qed.

Lemma rssi_fetches_twice_witness :
  let w := answers [reply "system" "get_sysinfo" plug_sysinfo;
                    reply "system" "get_sysinfo" plug_sysinfo] in
  plug_sysinfo !! "err_code" = Some (JInt 0) /\
  DeviceInfo.rssi (plug_at "192.168.1.105") w =
    (Ok (Some (-61)),
     {| script := [];
        sent := [("192.168.1.105", sysinfo_request);
                 ("192.168.1.105", sysinfo_request)];
        today := (2017, 6) |}).
Proof.
  intros w.
  assert (Hw : script w =
    inr (reply "system" "get_sysinfo" plug_sysinfo)
    :: inr (reply "system" "get_sysinfo" plug_sysinfo) :: []) by reflexivity.
  assert (Hcode : plug_sysinfo !! "err_code" = Some (JInt 0)) by reflexivity.
  split; [exact Hcode|].
  etransitivity;
    [exact (rssi_fetches_twice (plug_at "192.168.1.105") w _ _ _ _ _
              Hw Hcode Hcode)|].
  reflexivity.
Defined.

(** ** The relay of a plug *)

Lemma cond_Zopp_zero s x : cond_Zopp s x = 0 -> x = 0.
Proof. destruct s; cbn; lia. Qed.

Lemma float_as_int_zero f : float_as_int f = Some 0 -> float_is_zero f = true.
Proof.
  destruct f as [s|s| |s m e]; cbn; try discriminate; [reflexivity|].
  destruct (Z.leb_spec 0 e) as [He|He].
  - intros [= H]. apply cond_Zopp_zero in H.
    rewrite Z.shiftl_mul_pow2 in H by exact He.
    pose proof (Z.pow_pos_nonneg 2 e ltac:(lia) He). nia.
  - destruct (Z.eqb_spec (Z.land (Z.pos m) (Z.ones (- e))) 0) as [Hl|_];
      [|discriminate].
    intros [= H]. apply cond_Zopp_zero in H.
    rewrite Z.land_ones in Hl by lia.
    rewrite Z.shiftr_div_pow2 in H by lia.
    pose proof (Z.pow_pos_nonneg 2 (- e) ltac:(lia) ltac:(lia)) as Hp.
    pose proof (Z.div_mod (Z.pos m) (2 ^ (- e)) ltac:(lia)) as Hdm.
    rewrite H, Hl in Hdm. lia.
Qed.

(** A value equal to 1 is true, a value equal to 0 is false. *)
Lemma eq_int_truth v :
  (eq_int v 1 = true -> truth v = true) /\
  (eq_int v 0 = true -> truth v = false).
Proof.
  destruct v as [|b|z|f|s|l|m]; unfold eq_int, key_eqb, truth;
    try (split; discriminate).
  - destruct b; split; intros H; (reflexivity || discriminate).
  - split; intros H; apply Z.eqb_eq in H; subst z; reflexivity.
  - destruct (float_as_int f) as [y|] eqn:Hf; [|split; discriminate].
    split; intros H; apply Z.eqb_eq in H; subst y.
    + destruct f; try reflexivity. discriminate Hf.
    + rewrite (float_as_int_zero _ Hf). reflexivity.
Qed.

Section PlugRelay.

Variable self : Device.
Variable si : gmap string json.
Variable code : json.
Hypothesis Hcode : si !! "err_code" = Some code.

Let relay_state : json := SmartDevice.sys_info_get si "relay_state".

Lemma plug_state_reply w rest :
  script w = inr (reply "system" "get_sysinfo" si) :: rest ->
  fst (PlugControl.state self w) =
  Ok (if eq_int relay_state 0 then PlugControl.SWITCH_STATE_OFF
      else if eq_int relay_state 1 then PlugControl.SWITCH_STATE_ON
      else PlugControl.SWITCH_STATE_UNKNOWN).
Proof.
  intros Hw. unfold PlugControl.state, bind.
  rewrite (sys_info_reply _ _ _ _ _ Hw Hcode).
  rewrite sys_info_get_delete by discriminate. fold relay_state.
  destruct (eq_int relay_state 0); [reflexivity|].
  destruct (eq_int relay_state 1); reflexivity.
Qed.

Lemma plug_is_on_reply w rest :
  script w = inr (reply "system" "get_sysinfo" si) :: rest ->
  SmartPlug.is_on self w =
  (Ok (truth relay_state), after w (ip_address self) sysinfo_request).
Proof.
  intros Hw. unfold SmartPlug.is_on.
  assert (Hne : "relay_state" <> "err_code") by discriminate.
  exact (capability_reply self w _ _ _ _ Hne Hw Hcode).
Qed.

End PlugRelay.

(** X9: on the same system information, [state] and [is_on] of a plug
    agree where [state] is definite: a plug whose state reads [ON] is on,
    one whose state reads [OFF] is not; [state] is always one of [ON],
    [OFF] and [UNKNOWN]. *)
Theorem plug_state_agrees_with_is_on self (si : gmap string json) code
    w rest w' rest' :
  si !! "err_code" = Some code ->
  script w = inr (reply "system" "get_sysinfo" si) :: rest ->
  script w' = inr (reply "system" "get_sysinfo" si) :: rest' ->
  exists st on,
    fst (PlugControl.state self w) = Ok st /\
    fst (SmartPlug.is_on self w') = Ok on /\
    (st = "ON" \/ st = "OFF" \/ st = "UNKNOWN") /\
    (st = "ON" -> on = true) /\
    (st = "OFF" -> on = false).
Proof.
  intros Hcode Hw Hw'.
  rewrite (plug_state_reply self si code Hcode w rest Hw).
  rewrite (plug_is_on_reply self si code Hcode w' rest' Hw').
  cbn [fst]. eexists. eexists. split; [reflexivity|]. split; [reflexivity|].
  destruct (eq_int_truth (SmartDevice.sys_info_get si "relay_state"))
    as [H1 H0].
  destruct (eq_int (SmartDevice.sys_info_get si "relay_state") 0) eqn:E0.
  - split; [right; left; reflexivity|]. split; [discriminate|].
    intros _. apply H0. reflexivity.
  - destruct (eq_int (SmartDevice.sys_info_get si "relay_state") 1) eqn:E1.
    + split; [left; reflexivity|]. split; [|discriminate].
      intros _. apply H1. reflexivity.
    + split; [right; right; reflexivity|]. split; discriminate.
Qed.

Lemma plug_state_agrees_with_is_on_witness :
  let w := answers [reply "system" "get_sysinfo" plug_sysinfo] in
  plug_sysinfo !! "err_code" = Some (JInt 0) /\
  exists st on,
    fst (PlugControl.state (plug_at "192.168.1.105") w) = Ok st /\
    fst (SmartPlug.is_on (plug_at "192.168.1.105") w) = Ok on /\
    (st = "ON" \/ st = "OFF" \/ st = "UNKNOWN") /\
    (st = "ON" -> on = true) /\
    (st = "OFF" -> on = false).
Proof.
  intros w.
  assert (Hcode : plug_sysinfo !! "err_code" = Some (JInt 0)) by reflexivity.
  assert (Hw : script w = inr (reply "system" "get_sysinfo" plug_sysinfo) :: [])
    by reflexivity.
  split; [exact Hcode|].
  exact (plug_state_agrees_with_is_on (plug_at "192.168.1.105") plug_sysinfo
           _ w [] w [] Hcode Hw Hw).
Defined.

(** A relay state that is neither 0 nor 1 reads [UNKNOWN] while [is_on]
    says the plug is on; a missing one reads [UNKNOWN] and off. *)
Example plug_state_unknown :
  let odd : gmap string json :=
    <["err_code" := JInt 0]> {[ "relay_state" := JInt 2 ]} in
  let bare : gmap string json := {[ "err_code" := JInt 0 ]} in
  let self := plug_at "192.168.1.105" in
  fst (PlugControl.state self (answers [reply "system" "get_sysinfo" odd]))
    = Ok "UNKNOWN" /\
  fst (SmartPlug.is_on self (answers [reply "system" "get_sysinfo" odd]))
    = Ok true /\
  fst (PlugControl.state self (answers [reply "system" "get_sysinfo" bare]))
    = Ok "UNKNOWN" /\
  fst (SmartPlug.is_on self (answers [reply "system" "get_sysinfo" bare]))
    = Ok false.
Proof. repeat split; vm_compute; reflexivity. Qed.

(** ** Assigning the state *)

Lemma upper_lower_ascii c : upper_ascii (lower_ascii c) = upper_ascii c.
Proof.
  destruct c as [[] [] [] [] [] [] [] []]; vm_compute; reflexivity.
Qed.

Lemma upper_lower_string s :
  upper_string (lower_string s) = upper_string s.
Proof.
  induction s as [|c s IH]; [reflexivity|].
  cbn [lower_string upper_string]. rewrite upper_lower_ascii, IH.
  reflexivity.
Qed.

Lemma snd_then_tt {A} (c : M A) w :
  snd ((let* _ := c in ret tt) w) = snd (c w).
Proof. unfold bind, ret. destruct (c w) as [[a|e] w1]; reflexivity. Qed.

Definition relay_request (n : Z) : json :=
  request "system" "set_relay_state" (JObj {[ "state" := JInt n ]}).

(** X10: the state of a plug is assigned in any spelling: a string that
    reads [on] in lower case sends [set_relay_state] with state 1, one
    that reads [off] sends it with state 0, in one request. *)
Theorem plug_state_setter_any_case self s w :
  lower_string s = "on" \/ lower_string s = "off" ->
  sent (snd (PlugControl.set_state self (JStr s) w)) =
  sent w ++
  [(ip_address self,
    relay_request (if String.eqb (lower_string s) "on" then 1 else 0))].
Proof.
  intros [Hl|Hl]; rewrite Hl.
  - assert (Hup : upper_string s = "ON")
      by (rewrite <- upper_lower_string, Hl; reflexivity).
    unfold PlugControl.set_state. rewrite Hup.
    change (String.eqb "ON" PlugControl.SWITCH_STATE_ON) with true.
    change (String.eqb "on" "on") with true. cbv iota.
    unfold PlugControl.turn_on. rewrite snd_then_tt.
    rewrite query_helper_one_exchange. reflexivity.
  - assert (Hup : upper_string s = "OFF")
      by (rewrite <- upper_lower_string, Hl; reflexivity).
    unfold PlugControl.set_state. rewrite Hup.
    change (String.eqb "OFF" PlugControl.SWITCH_STATE_ON) with false.
    change (String.eqb "OFF" PlugControl.SWITCH_STATE_OFF) with true.
    change (String.eqb "off" "on") with false. cbv iota.
    unfold PlugControl.turn_off. rewrite snd_then_tt.
    rewrite query_helper_one_exchange. reflexivity.
Qed.

Lemma plug_state_setter_any_case_witness :
  (lower_string "oFf" = "on" \/ lower_string "oFf" = "off") /\
  sent (snd (PlugControl.set_state (plug_at "192.168.1.105") (JStr "oFf")
               (answers []))) =
  [("192.168.1.105", relay_request 0)].
Proof.
  assert (H : lower_string "oFf" = "on" \/ lower_string "oFf" = "off")
    by (right; reflexivity).
  split; [exact H|].
  exact (plug_state_setter_any_case (plug_at "192.168.1.105") "oFf"
           (answers []) H).
Defined.

(** X11: a value that is not a string, or a string that reads neither
    [ON] nor [OFF] in upper case, makes the setter raise [ValueError]
    before anything is sent. *)
Theorem plug_state_setter_rejects self value w :
  (forall s, value = JStr s ->
     upper_string s <> "ON" /\ upper_string s <> "OFF") ->
  PlugControl.set_state self value w = (Raise ValueError, w).
Proof.
  intros H. unfold PlugControl.set_state.
  destruct value as [| | | |s| |]; try reflexivity.
  destruct (H s eq_refl) as [Hon Hoff].
  destruct (String.eqb_spec (upper_string s) PlugControl.SWITCH_STATE_ON);
    [contradiction|].
  destruct (String.eqb_spec (upper_string s) PlugControl.SWITCH_STATE_OFF);
    [contradiction|].
  reflexivity.
Qed.

Lemma plug_state_setter_rejects_witness :
  (forall s, JInt 1 = JStr s ->
     upper_string s <> "ON" /\ upper_string s <> "OFF") /\
  PlugControl.set_state (plug_at "192.168.1.105") (JInt 1) (answers []) =
    (Raise ValueError, answers []).
Proof.
  assert (H : forall s, JInt 1 = JStr s ->
                upper_string s <> "ON" /\ upper_string s <> "OFF")
    by (intros s Hs; discriminate Hs).
  split; [exact H|].
  exact (plug_state_setter_rejects (plug_at "192.168.1.105") (JInt 1)
           (answers []) H).
Defined.

(** ** The LED of a plug *)

Definition led_request (n : Z) : json :=
  request "system" "set_led_off" (JObj {[ "off" := JInt n ]}).

(** X12: the LED setter sends [off] as 0 for a true value and 1 for a
    false one; a plug that reports that [led_off] reads back the truth
    value that was set, and a device that reports no [led_off] makes the
    getter raise [TypeError]. *)
Theorem led_reads_back_what_was_set self state w w'
    (si : gmap string json) code rest :
  script w' = inr (reply "system" "get_sysinfo" si) :: rest ->
  si !! "err_code" = Some code ->
  let off := if truth state then 0 else 1 in
  sent (snd (PlugControl.set_led self state w)) =
    sent w ++ [(ip_address self, led_request off)] /\
  (si !! "led_off" = Some (JInt off) ->
   fst (PlugControl.led self w') = Ok (truth state)) /\
  (si !! "led_off" = None -> fst (PlugControl.led self w') = Raise TypeError).
Proof.
  intros Hw' Hcode off. split; [|split].
  - unfold PlugControl.set_led. rewrite snd_then_tt.
    rewrite query_helper_one_exchange. unfold off.
    destruct (truth state); reflexivity.
  - intros Hled. unfold PlugControl.led, bind.
    rewrite (sys_info_reply _ _ _ _ _ Hw' Hcode).
    rewrite sys_info_get_delete by discriminate.
    unfold SmartDevice.sys_info_get. rewrite Hled. unfold off.
    destruct (truth state); reflexivity.
  - intros Hled. unfold PlugControl.led, bind.
    rewrite (sys_info_reply _ _ _ _ _ Hw' Hcode).
    rewrite sys_info_get_delete by discriminate.
    unfold SmartDevice.sys_info_get. rewrite Hled. reflexivity.
Qed.

Lemma led_reads_back_what_was_set_witness :
  let w' := answers [reply "system" "get_sysinfo" plug_sysinfo] in
  plug_sysinfo !! "err_code" = Some (JInt 0) /\
  plug_sysinfo !! "led_off" = Some (JInt 0) /\
  sent (snd (PlugControl.set_led (plug_at "192.168.1.105") (JBool true)
               (answers []))) =
    [("192.168.1.105", led_request 0)] /\
  fst (PlugControl.led (plug_at "192.168.1.105") w') = Ok true.
Proof.
  intros w'.
  assert (Hw : script w' =
    inr (reply "system" "get_sysinfo" plug_sysinfo) :: []) by reflexivity.
  assert (Hcode : plug_sysinfo !! "err_code" = Some (JInt 0)) by reflexivity.
  assert (Hled : plug_sysinfo !! "led_off" = Some (JInt 0)) by reflexivity.
  destruct (led_reads_back_what_was_set (plug_at "192.168.1.105")
              (JBool true) (answers []) w' _ _ _ Hw Hcode) as (H1 & H2 & _).
  split; [exact Hcode|]. split; [exact Hled|]. split; [exact H1|].
  exact (H2 Hled).
Defined.

(** ** Switching a bulb *)

Definition on_off_request (n : Z) : json :=
  request SmartBulb.lightingservice "transition_light_state"
    (JObj {[ "on_off" := JInt n ]}).

(** X13: the state of a bulb is assigned by the exact strings [ON] and
    [OFF] only: any other value, [on] in lower case included, raises
    [ValueError] before anything is sent. *)
Theorem bulb_state_setter_rejects self value w :
  value <> JStr "ON" ->
  value <> JStr "OFF" ->
  BulbControl.set_state self value w = (Raise ValueError, w).
Proof.
  intros Hon Hoff. unfold BulbControl.set_state. unfold bind at 1, lift.
  assert (H1 : is_str SmartBulb.BULB_STATE_ON value = false).
  { destruct value as [| | | |s| |]; try reflexivity. cbn [is_str].
    destruct (String.eqb_spec s SmartBulb.BULB_STATE_ON) as [->|];
      [contradiction|reflexivity]. }
  assert (H0 : is_str SmartBulb.BULB_STATE_OFF value = false).
  { destruct value as [| | | |s| |]; try reflexivity. cbn [is_str].
    destruct (String.eqb_spec s SmartBulb.BULB_STATE_OFF) as [->|];
      [contradiction|reflexivity]. }
  rewrite H1, H0. reflexivity.
Qed.

Lemma bulb_state_setter_rejects_witness :
  JStr "on" <> JStr "ON" /\
  JStr "on" <> JStr "OFF" /\
  BulbControl.set_state (bulb_at "192.168.1.106") (JStr "on") (answers []) =
    (Raise ValueError, answers []).
Proof.
  assert (H1 : JStr "on" <> JStr "ON") by discriminate.
  assert (H0 : JStr "on" <> JStr "OFF") by discriminate.
  split; [exact H1|]. split; [exact H0|].
  exact (bulb_state_setter_rejects (bulb_at "192.168.1.106") (JStr "on")
           (answers []) H1 H0).
Defined.

Lemma bulb_turn_sent self w :
  sent (snd (BulbControl.turn_on self w)) =
    sent w ++ [(ip_address self, on_off_request 1)] /\
  sent (snd (BulbControl.turn_off self w)) =
    sent w ++ [(ip_address self, on_off_request 0)].
Proof.
  unfold BulbControl.turn_on, BulbControl.turn_off, BulbControl.set_state.
  split.
  - unfold bind at 1, lift. cbn [is_str String.eqb].
    change (String.eqb SmartBulb.BULB_STATE_ON SmartBulb.BULB_STATE_ON)
      with true. cbv iota.
    rewrite snd_then_tt. unfold SmartBulb.set_light_state.
    rewrite query_helper_one_exchange. reflexivity.
  - unfold bind at 1, lift. cbn [is_str].
    change (String.eqb SmartBulb.BULB_STATE_OFF SmartBulb.BULB_STATE_ON)
      with false.
    change (String.eqb SmartBulb.BULB_STATE_OFF SmartBulb.BULB_STATE_OFF)
      with true. cbv iota.
    rewrite snd_then_tt. unfold SmartBulb.set_light_state.
    rewrite query_helper_one_exchange. reflexivity.
Qed.

(** ** Toggling *)

(** X14: toggling a plug reads the system information and then sends the
    opposite of the relay state it reported: state 1 when the relay state
    was false, state 0 when it was true; two requests in all. *)
Theorem toggle_plug_inverts_relay self w (si : gmap string json) code rest :
  cls self = Plug ->
  script w = inr (reply "system" "get_sysinfo" si) :: rest ->
  si !! "err_code" = Some code ->
  sent (snd (toggle self w)) =
  sent w ++
  [(ip_address self, sysinfo_request);
   (ip_address self,
    relay_request
      (if truth (SmartDevice.sys_info_get si "relay_state") then 0 else 1))].
Proof.
  intros Hcls Hw Hcode. unfold toggle, is_off, is_on, turn_on, turn_off.
  rewrite Hcls. unfold bind at 1. unfold bind at 1.
  rewrite (plug_is_on_reply self si code Hcode w rest Hw).
  unfold ret at 1.
  destruct (truth (SmartDevice.sys_info_get si "relay_state")); cbn [negb].
  - unfold PlugControl.turn_off. rewrite snd_then_tt.
    rewrite query_helper_one_exchange. cbn [sent after].
    rewrite <- app_assoc. reflexivity.
  - unfold PlugControl.turn_on. rewrite snd_then_tt.
    rewrite query_helper_one_exchange. cbn [sent after].
    rewrite <- app_assoc. reflexivity.
Qed.

Lemma toggle_plug_inverts_relay_witness :
  let self := plug_at "192.168.1.105" in
  let w := answers [reply "system" "get_sysinfo" plug_sysinfo] in
  cls self = Plug /\
  plug_sysinfo !! "err_code" = Some (JInt 0) /\
  sent (snd (toggle self w)) =
    [("192.168.1.105", sysinfo_request);
     ("192.168.1.105", relay_request 0)].
Proof.
  intros self w.
  assert (Hcls : cls self = Plug) by reflexivity.
  assert (Hw : script w = inr (reply "system" "get_sysinfo" plug_sysinfo) :: [])
    by reflexivity.
  assert (Hcode : plug_sysinfo !! "err_code" = Some (JInt 0)) by reflexivity.
  split; [exact Hcls|]. split; [exact Hcode|].
  exact (toggle_plug_inverts_relay self w _ _ _ Hcls Hw Hcode).
Defined.

(** X15: toggling a bulb queries the light state and then sends the
    opposite of the [on_off] it reported. *)
Theorem toggle_bulb_inverts_on_off self w (ls : gmap string json) code on_off
    rest :
  cls self = Bulb ->
  script w =
    inr (reply SmartBulb.lightingservice "get_light_state" ls) :: rest ->
  ls !! "err_code" = Some code ->
  ls !! "on_off" = Some on_off ->
  sent (snd (toggle self w)) =
  sent w ++
  [(ip_address self, light_state_request);
   (ip_address self, on_off_request (if truth on_off then 0 else 1))].
Proof.
  intros Hcls Hw Hcode Hon. unfold toggle, is_off, is_on, turn_on, turn_off.
  rewrite Hcls. unfold bind at 1. unfold bind at 1.
  rewrite (is_on_reply self w _ _ _ _ Hw Hcode Hon).
  unfold ret at 1.
  destruct (bulb_turn_sent self (after w (ip_address self) light_state_request))
    as [Hturn_on Hturn_off].
  destruct (truth on_off); cbn [negb].
  - rewrite Hturn_off. cbn [sent after]. rewrite <- app_assoc. reflexivity.
  - rewrite Hturn_on. cbn [sent after]. rewrite <- app_assoc. reflexivity.
Qed.

Definition light_state_on : gmap string json :=
  <["err_code" := JInt 0]>
  (<["on_off" := JInt 1]>
  (<["brightness" := JInt 50]> ∅)).

Lemma toggle_bulb_inverts_on_off_witness :
  let self := bulb_at "192.168.1.106" in
  let w := answers [reply SmartBulb.lightingservice "get_light_state"
                      light_state_on] in
  cls self = Bulb /\
  light_state_on !! "on_off" = Some (JInt 1) /\
  sent (snd (toggle self w)) =
    [("192.168.1.106", light_state_request);
     ("192.168.1.106", on_off_request 0)].
Proof.
  intros self w.
  assert (Hcls : cls self = Bulb) by reflexivity.
  assert (Hw : script w =
    inr (reply SmartBulb.lightingservice "get_light_state" light_state_on)
    :: []) by reflexivity.
  assert (Hcode : light_state_on !! "err_code" = Some (JInt 0))
    by reflexivity.
  assert (Hon : light_state_on !! "on_off" = Some (JInt 1)) by reflexivity.
  split; [exact Hcls|]. split; [exact Hon|].
  exact (toggle_bulb_inverts_on_off self w _ _ _ _ Hcls Hw Hcode Hon).
Defined.

(** ** Setters of a bulb without the capability *)

(** X16: on a bulb whose system information does not advertise a
    capability (the flag is false, zero or missing), the setter of the
    corresponding attribute returns without an error and without sending
    a command: the only request is the [get_sysinfo] query of the
    check. *)
Theorem bulb_setters_without_capability self w (si : gmap string json) code
    rest brightness temp state :
  script w = inr (reply "system" "get_sysinfo" si) :: rest ->
  si !! "err_code" = Some code ->
  let w1 := {| script := rest;
               sent := sent w ++ [(ip_address self, sysinfo_request)];
               today := today w |} in
  (truth (SmartDevice.sys_info_get si "is_dimmable") = false ->
   SmartBulb.set_brightness self brightness w = (Ok tt, w1)) /\
  (truth (SmartDevice.sys_info_get si "is_variable_color_temp") = false ->
   SmartBulb.set_color_temp self temp w = (Ok tt, w1)) /\
  (truth (SmartDevice.sys_info_get si "is_color") = false ->
   SmartBulb.set_hsv self state w = (Ok tt, w1)).
Proof.
  intros Hw Hcode w1.
  assert (Hafter : after w (ip_address self) sysinfo_request = w1)
    by (unfold after, w1; rewrite Hw; reflexivity).
  split; [|split]; intros Hflag.
  - unfold SmartBulb.set_brightness, SmartBulb.is_dimmable. unfold bind at 1.
    assert (Hne : "is_dimmable" <> "err_code") by discriminate.
    rewrite (capability_reply self w _ _ _ _ Hne Hw Hcode), Hflag, Hafter.
    reflexivity.
  - unfold SmartBulb.set_color_temp, SmartBulb.is_variable_color_temp.
    unfold bind at 1.
    assert (Hne : "is_variable_color_temp" <> "err_code") by discriminate.
    rewrite (capability_reply self w _ _ _ _ Hne Hw Hcode), Hflag, Hafter.
    reflexivity.
  - unfold SmartBulb.set_hsv, SmartBulb.is_color. unfold bind at 1.
    assert (Hne : "is_color" <> "err_code") by discriminate.
    rewrite (capability_reply self w _ _ _ _ Hne Hw Hcode), Hflag, Hafter.
    reflexivity.
Qed.

(** A white bulb: dimmable, no colour. *)
Definition white_bulb_sysinfo : gmap string json :=
  <["err_code" := JInt 0]>
  (<["is_color" := JInt 0]>
  (<["is_dimmable" := JInt 1]> ∅)).

Lemma bulb_setters_without_capability_witness :
  let self := bulb_at "192.168.1.106" in
  let w := answers [reply "system" "get_sysinfo" white_bulb_sysinfo] in
  let w1 := {| script := []; sent := [("192.168.1.106", sysinfo_request)];
               today := (2017, 6) |} in
  white_bulb_sysinfo !! "err_code" = Some (JInt 0) /\
  truth (SmartDevice.sys_info_get white_bulb_sysinfo "is_color") = false /\
  truth (SmartDevice.sys_info_get white_bulb_sysinfo
           "is_variable_color_temp") = false /\
  SmartBulb.set_hsv self (JInt 120, JInt 50, JInt 255) w = (Ok tt, w1) /\
  SmartBulb.set_color_temp self (JInt 2700) w = (Ok tt, w1).
Proof.
  intros self w w1.
  assert (Hw : script w =
    inr (reply "system" "get_sysinfo" white_bulb_sysinfo) :: []) by reflexivity.
  assert (Hcode : white_bulb_sysinfo !! "err_code" = Some (JInt 0))
    by reflexivity.
  assert (Hcol :
    truth (SmartDevice.sys_info_get white_bulb_sysinfo "is_color") = false)
    by reflexivity.
  assert (Htemp :
    truth (SmartDevice.sys_info_get white_bulb_sysinfo
             "is_variable_color_temp") = false) by reflexivity.
  destruct (bulb_setters_without_capability self w _ _ _ (JInt 0)
              (JInt 2700) (JInt 120, JInt 50, JInt 255) Hw Hcode)
    as (_ & H2 & H3).
  split; [exact Hcode|]. split; [exact Hcol|]. split; [exact Htemp|].
  split; [exact (H3 Hcol)|exact (H2 Htemp)].
Defined.

(** ** Monthly statistics of the energy meter *)

(** X17: on a device with an energy meter, the monthly statistics are the
    dict that maps the [month] of each entry of [month_list] to the
    entry's energy, read from the field the unit flag selects; the request
    carries the year asked for, or the current year when none is given. *)
Theorem monthly_energy_by_month self year w w1
    (body : gmap string json) (code : json) (entries : list json)
    (pairs : list (Z * json)) rest :
  has_emeter self w = (Ok true, w1) ->
  script w1 = inr (reply (emeter_type self) "get_monthstat" body) :: rest ->
  body !! "err_code" = Some code ->
  body !! "month_list" = Some (JArr entries) ->
  Forall2
    (entry_of "month" (if emeter_units self then "energy_wh" else "energy"))
    entries pairs ->
  Emeter.get_emeter_monthly self year w =
    (Ok (Some (insert_all pairs [])),
     {| script := rest;
        sent := sent w1 ++
          [(ip_address self,
            request (emeter_type self) "get_monthstat"
              (JObj {[ "year" := JInt (default (fst (today w1)) year) ]}))];
        today := today w1 |}) /\
  forall month,
    dict_get (insert_all pairs []) (JInt month) =
    snd <$> last (filter (fun p => fst p = month) pairs).
Proof.
  intros Hhas Hw1 Hcode Hlist Hentries. split.
  - unfold Emeter.get_emeter_monthly. unfold bind at 1. rewrite Hhas.
    cbn [negb].
    assert (Hne : "get_monthstat" <> "err_code") by discriminate.
    assert (Hyear :
      (match year with
       | Some y => ret y
       | None => let* t := now in ret (fst t)
       end) w1 = (Ok (default (fst (today w1)) year), w1))
      by (destruct year; reflexivity).
    unfold bind at 1. rewrite Hyear.
    unfold bind at 1.
    rewrite (query_helper_reply _ _ _ _ _ _ _ _ Hne Hw1 Hcode).
    unfold bind, lift, ret, getitem.
    rewrite lookup_delete_ne by discriminate. rewrite Hlist.
    cbn [iter]. unfold Emeter.energy_key.
    rewrite (collect_entries _ _ _ _ _ Hentries).
    unfold after, arg_or_empty. rewrite Hw1. reflexivity.
  - intros month. rewrite dict_get_insert_all by constructor.
    destruct (last (filter (fun p => fst p = month) pairs)); reflexivity.
Qed.

Definition month_entry (key : string) (month energy : Z) : json :=
  JObj (<["month" := JInt month]> (<[key := JInt energy]> ∅)).

Definition monthstat_body : gmap string json :=
  <["err_code" := JInt 0]>
  (<["month_list" :=
      JArr [month_entry "energy_wh" 5 3100; month_entry "energy_wh" 6 2400]]>
   ∅).

Lemma monthly_energy_by_month_witness :
  let self := bulb_at "192.168.1.106" in
  let w := answers [reply (emeter_type self) "get_monthstat" monthstat_body] in
  has_emeter self w = (Ok true, w) /\
  Emeter.get_emeter_monthly self None w =
    (Ok (Some [(JInt 5, JInt 3100); (JInt 6, JInt 2400)]),
     {| script := [];
        sent := [("192.168.1.106",
                  request "smartlife.iot.common.emeter" "get_monthstat"
                    (JObj {[ "year" := JInt 2017 ]}))];
        today := (2017, 6) |}).
Proof.
  intros self w.
  assert (Hhas : has_emeter self w = (Ok true, w)) by reflexivity.
  assert (Hw : script w =
    inr (reply (emeter_type self) "get_monthstat" monthstat_body) :: [])
    by reflexivity.
  assert (Hcode : monthstat_body !! "err_code" = Some (JInt 0))
    by reflexivity.
  assert (Hlist : monthstat_body !! "month_list" =
    Some (JArr [month_entry "energy_wh" 5 3100;
                month_entry "energy_wh" 6 2400])) by reflexivity.
  assert (Hentries : Forall2
    (entry_of "month" (if emeter_units self then "energy_wh" else "energy"))
    [month_entry "energy_wh" 5 3100; month_entry "energy_wh" 6 2400]
    [(5, JInt 3100); (6, JInt 2400)]).
  { repeat constructor. }
  split; [exact Hhas|].
  exact (proj1 (monthly_energy_by_month self None w w _ _ _ _ _
                  Hhas Hw Hcode Hlist Hentries)).
Defined.

(** ** Entries in the other unit *)

Lemma collect_stops period key good pairs (e : gmap string json) day more d :
  Forall2 (entry_of period key) good pairs ->
  e !! period = Some day ->
  e !! key = None ->
  Emeter.collect period key (good ++ JObj e :: more) d = Raise (KeyError key).
Proof.
  intros Hgood Hday Hkey. revert d.
  induction Hgood as [|entry [k v] good pairs [Hk Hv] _ IH]; intros d.
  - cbn [app Emeter.collect]. unfold getitem, rbind. rewrite Hday, Hkey.
    reflexivity.
  - cbn [app Emeter.collect]. cbn [fst snd] in Hk, Hv. rewrite Hk, Hv.
    cbn. apply IH.
Qed.

(** X18: the daily statistics are all or nothing: when an entry of
    [day_list] has no field for the unit of the device, as when a device
    reporting [energy_wh] is read with the flag for raw units, the call
    raises [KeyError] for that field, whatever the entries before it
    held. *)
Theorem daily_energy_missing_field self year month w w1
    (body e : gmap string json) (code day : json) (good more : list json)
    (pairs : list (Z * json)) rest :
  has_emeter self w = (Ok true, w1) ->
  script w1 = inr (reply (emeter_type self) "get_daystat" body) :: rest ->
  body !! "err_code" = Some code ->
  body !! "day_list" = Some (JArr (good ++ JObj e :: more)) ->
  Forall2
    (entry_of "day" (if emeter_units self then "energy_wh" else "energy"))
    good pairs ->
  e !! "day" = Some day ->
  e !! (if emeter_units self then "energy_wh" else "energy") = None ->
  fst (Emeter.get_emeter_daily self year month w) =
  Raise (KeyError (if emeter_units self then "energy_wh" else "energy")).
Proof.
  intros Hhas Hw1 Hcode Hlist Hgood Hday Hkey.
  unfold Emeter.get_emeter_daily. unfold bind at 1. rewrite Hhas.
  cbn [negb].
  assert (Hne : "get_daystat" <> "err_code") by discriminate.
  assert (Hrest : forall arg w2, script w2 = script w1 ->
    fst ((let* response :=
            SmartDevice._query_helper self (emeter_type self) "get_daystat"
              arg in
          let key := Emeter.energy_key self in
          let* day_list := lift (getitem response "day_list") in
          let* entries := lift (iter day_list) in
          let* d := lift (Emeter.collect "day" key entries []) in
          ret (Some d)) w2) =
    Raise (KeyError (if emeter_units self then "energy_wh" else "energy"))).
  { intros arg w2 Hw2. unfold bind at 1. rewrite <- Hw2 in Hw1.
    rewrite (query_helper_reply _ _ _ _ _ _ _ _ Hne Hw1 Hcode).
    unfold bind, lift, ret, getitem.
    rewrite lookup_delete_ne by discriminate. rewrite Hlist.
    cbn [iter]. unfold Emeter.energy_key.
    rewrite (collect_stops _ _ _ _ _ _ _ _ Hgood Hday Hkey). reflexivity. }
  destruct year as [y|], month as [m|]; unfold bind at 1, now, ret;
    try (unfold bind at 1); try (unfold bind at 1);
    apply Hrest; reflexivity.
Qed.

Lemma daily_energy_missing_field_witness :
  let self := plug_at "192.168.1.105" in
  let sysinfo : gmap string json :=
    <["err_code" := JInt 0]> (<["feature" := JStr "TIM:ENE"]> ∅) in
  let w := answers [reply "system" "get_sysinfo" sysinfo;
                    reply "emeter" "get_daystat" (daystat_body "energy_wh")] in
  fst (has_emeter self w) = Ok true /\
  fst (Emeter.get_emeter_daily self None None w) = Raise (KeyError "energy").
Proof.
  intros self sysinfo w.
  assert (Hhas : has_emeter self w =
    (Ok true, after w "192.168.1.105" sysinfo_request))
    by (vm_compute; reflexivity).
  assert (Hw1 : script (after w "192.168.1.105" sysinfo_request) =
    inr (reply (emeter_type self) "get_daystat" (daystat_body "energy_wh"))
    :: []) by reflexivity.
  assert (Hcode : daystat_body "energy_wh" !! "err_code" = Some (JInt 0))
    by reflexivity.
  assert (Hlist : daystat_body "energy_wh" !! "day_list" =
    Some (JArr ([] ++ JObj (<["day" := JInt 1]>
                              (<["energy_wh" := JInt 120]> ∅))
                   :: [day_entry "energy_wh" 2 80]))) by reflexivity.
  assert (Hgood : Forall2
    (entry_of "day" (if emeter_units self then "energy_wh" else "energy"))
    [] []) by constructor.
  assert (Hday : (<["day" := JInt 1]> (<["energy_wh" := JInt 120]> ∅)
                    : gmap string json) !! "day" = Some (JInt 1))
    by reflexivity.
  assert (Hkey : (<["day" := JInt 1]> (<["energy_wh" := JInt 120]> ∅)
                    : gmap string json)
                   !! (if emeter_units self then "energy_wh" else "energy")
                 = None) by reflexivity.
  split; [rewrite Hhas; reflexivity|].
  exact (daily_energy_missing_field self None None w _ _ _ _ _ _ _ _ _
           Hhas Hw1 Hcode Hlist Hgood Hday Hkey).
Defined.

(** ** What discovery returns *)

(** The first half of a turn: the value the variable [type] has after the
    reply was read. *)
Definition declared (type : option json) (d : Discover.datagram)
    : Discover.L (option json) :=
  let* info :=
    lift (match Discover.parsed d with
          | Some j => Ok j
          | None => Raise ValueError
          end) in
  let* has_system := lift (contains info "system") in
  let* found :=
    (if has_system then
       let* system := lift (getitem info "system") in
       lift (contains system "get_sysinfo")
     else ret false) in
  if found then
    let* sysinfo := lift (getitem2 info "system" "get_sysinfo") in
    let* has_type := lift (contains sysinfo "type") in
    if has_type then
      let* t := lift (getitem sysinfo "type") in ret (Some t)
    else
      let* has_mic_type := lift (contains sysinfo "mic_type") in
      if has_mic_type then
        let* t := lift (getitem sysinfo "mic_type") in ret (Some t)
      else
        let* _ := Discover.log Discover.ErrorNoTypeField in
        ret (Some (JStr "UNKNOWN"))
  else
    let* _ := Discover.log Discover.ErrorNoSystem in
    ret type.

(** The second half: the device recorded for the type. *)
Definition place (devices : gmap string Device) (ip : string)
    (type : option json)
    : Discover.L (gmap string Device * option json) :=
  let* t :=
    lift (match type with
          | Some t => Ok t
          | None => Raise (UnboundLocalError "type")
          end) in
  let* lowered := lift (lower t) in
  if str_contains lowered "smartplug" then
    let* dev := lift (SmartPlug.__init__ ip) in
    ret (<[ip := dev]> devices, type)
  else
    let* lowered := lift (lower t) in
    if str_contains lowered "smartbulb" then
      let* dev := lift (SmartBulb.__init__ ip) in
      ret (<[ip := dev]> devices, type)
    else ret (devices, type).

Lemma bind_assoc {S A B C} (c : St S A) (f : A -> St S B) (g : B -> St S C) s :
  (let* b := (let* a := c in f a) in g b) s =
  (let* a := c in let* b := f a in g b) s.
Proof. unfold bind. destruct (c s) as [[a|e] s1]; reflexivity. Qed.

Lemma bind_ext {S A B} (c : St S A) (f g : A -> St S B) s :
  (forall a s1, f a s1 = g a s1) ->
  (let* a := c in f a) s = (let* a := c in g a) s.
Proof. intros H. unfold bind. destruct (c s) as [[a|e] s1]; [apply H|reflexivity]. Qed.

Lemma turn_split devices type d l :
  Discover.turn devices type d l =
  (let* ty := declared type d in place devices (fst (Discover.addr d)) ty) l.
Proof.
  unfold declared. rewrite bind_assoc. unfold Discover.turn.
  apply bind_ext. intros info l1.
  rewrite bind_assoc. apply bind_ext. intros has_system l2.
  rewrite bind_assoc. apply bind_ext. intros found l3.
  reflexivity.
Qed.

Lemma init_plug_inv ip dev :
  SmartPlug.__init__ ip = Ok dev ->
  dev = plug_at ip /\ exists bytes, Socket.inet_pton ip = Ok bytes.
Proof.
  unfold SmartPlug.__init__, SmartDevice.__init__, rbind.
  destruct (Socket.inet_pton ip) as [bytes|]; [|discriminate].
  intros [= <-]. split; [reflexivity|]. exists bytes. reflexivity.
Qed.

Lemma init_bulb_inv ip dev :
  SmartBulb.__init__ ip = Ok dev ->
  dev = bulb_at ip /\ exists bytes, Socket.inet_pton ip = Ok bytes.
Proof.
  unfold SmartBulb.__init__, SmartDevice.__init__, rbind.
  destruct (Socket.inet_pton ip) as [bytes|]; [|discriminate].
  intros [= <-]. split; [reflexivity|]. exists bytes. reflexivity.
Qed.

(** A well-formed entry of the mapping for the address [ip]. *)
Definition entry_for (ip : string) (dev : Device) : Prop :=
  (dev = plug_at ip \/ dev = bulb_at ip) /\
  exists bytes, Socket.inet_pton ip = Ok bytes.

Lemma place_changes devices ip type l devices' type' l' :
  place devices ip type l = (Ok (devices', type'), l') ->
  devices' = devices \/
  exists dev, devices' = <[ip := dev]> devices /\ entry_for ip dev.
Proof.
  unfold place, bind, lift, ret.
  destruct type as [t|]; [|discriminate].
  destruct (lower t) as [lowered|]; [|discriminate].
  destruct (str_contains lowered "smartplug").
  - destruct (SmartPlug.__init__ ip) as [dev|] eqn:Hdev; [|discriminate].
    intros [= <- _ _]. right. exists dev. split; [reflexivity|].
    apply init_plug_inv in Hdev as [-> Hip]. split; [left; reflexivity|exact Hip].
  - destruct (str_contains lowered "smartbulb").
    + destruct (SmartBulb.__init__ ip) as [dev|] eqn:Hdev; [|discriminate].
      intros [= <- _ _]. right. exists dev. split; [reflexivity|].
      apply init_bulb_inv in Hdev as [-> Hip].
      split; [right; reflexivity|exact Hip].
    + intros [= <- _ _]. left. reflexivity.
Qed.

Lemma turn_changes devices type d l devices' type' l' :
  Discover.turn devices type d l = (Ok (devices', type'), l') ->
  devices' = devices \/
  exists dev,
    devices' = <[fst (Discover.addr d) := dev]> devices /\
    entry_for (fst (Discover.addr d)) dev.
Proof.
  rewrite turn_split. unfold bind at 1.
  destruct (declared type d l) as [[ty|e] l1]; [|discriminate].
  apply place_changes.
Qed.

(** The addresses the datagrams of [events] came from. *)
Definition sources (events : list Discover.recv) : list string :=
  omap (fun ev =>
          match ev with
          | Discover.Received d => Some (fst (Discover.addr d))
          | Discover.Failed _ => None
          end) events.

Definition sound (events : list Discover.recv) (devices : gmap string Device)
    : Prop :=
  forall ip dev,
    devices !! ip = Some dev -> entry_for ip dev /\ ip ∈ sources events.

Lemma receive_sound events devices type l :
  (forall ip dev, devices !! ip = Some dev -> entry_for ip dev) ->
  forall ip dev,
    fst (Discover.receive events devices type l) !! ip = Some dev ->
    entry_for ip dev /\ (devices !! ip = Some dev \/ ip ∈ sources events).
Proof.
  revert devices type l.
  induction events as [|[d|e] events IH]; intros devices type l Hdev ip dev.
  - cbn. intros H. split; [exact (Hdev _ _ H)|left; exact H].
  - cbn [Discover.receive].
    destruct (Discover.turn devices type d l) as [[[devices' type']|e] l']
      eqn:Hturn.
    + intros H.
      assert (Hdev' : forall ip dev,
                devices' !! ip = Some dev -> entry_for ip dev).
      { intros ip0 dev0 H0. apply turn_changes in Hturn as [->|(x & -> & Hx)].
        - exact (Hdev _ _ H0).
        - apply lookup_insert_Some in H0 as [[<- <-]|[_ H0]];
            [exact Hx|exact (Hdev _ _ H0)]. }
      destruct (IH devices' type' l' Hdev' ip dev H) as [Hentry Hwhere].
      split; [exact Hentry|].
      destruct Hwhere as [Hin|Hin].
      * apply turn_changes in Hturn as [->|(x & -> & Hx)].
        -- left. exact Hin.
        -- apply lookup_insert_Some in Hin as [[<- <-]|[_ Hin]].
           ++ right. cbn. left.
           ++ left. exact Hin.
      * right. cbn. right. exact Hin.
    + cbn [fst]. intros H. split; [exact (Hdev _ _ H)|left; exact H].
  - cbn. intros H. split; [exact (Hdev _ _ H)|left; exact H].
Qed.

(** X19: whatever arrives during discovery, every entry of the mapping
    returned is a plug or a bulb constructed for the address it is filed
    under, that address is a well-formed IPv4 address, and a datagram was
    received from it. *)
Theorem discovered_devices_are_sound
    (json_dumps : json -> list Z) (initial_key : Z)
    (protocol : option Protocol.t) (port : Z) (events : list Discover.recv)
    ip dev :
  Discover.devices
    (Discover.discover json_dumps initial_key protocol port events) !! ip
    = Some dev ->
  (dev = plug_at ip \/ dev = bulb_at ip) /\
  ip_address dev = ip /\
  (exists bytes, Socket.inet_pton ip = Ok bytes) /\
  ip ∈ sources events.
Proof.
  rewrite discover_devices. intros H.
  destruct (receive_sound events ∅ None _
              ltac:(intros ? ? H0; rewrite lookup_empty in H0; discriminate)
              ip dev H) as [[Hdev Hip] Hwhere].
  split; [exact Hdev|]. split; [|split; [exact Hip|]].
  - destruct Hdev as [-> | ->]; reflexivity.
  - destruct Hwhere as [H0|H0]; [|exact H0].
    rewrite lookup_empty in H0. discriminate.
Qed.

Lemma discovered_devices_are_sound_witness :
  let events :=
    [sysinfo_datagram "IOT.SMARTPLUGSWITCH" ("192.168.1.105", 9999)] in
  Discover.devices (Discover.discover dumps_query 171 None 9999 events)
    !! "192.168.1.105" = Some (plug_at "192.168.1.105") /\
  "192.168.1.105" ∈ sources events.
Proof.
  intros events.
  assert (H : Discover.devices
                (Discover.discover dumps_query 171 None 9999 events)
                !! "192.168.1.105" = Some (plug_at "192.168.1.105"))
    by (vm_compute; reflexivity).
  split; [exact H|].
  exact (proj2 (proj2 (proj2
           (discovered_devices_are_sound dumps_query 171 None 9999 events
              _ _ H)))).
Defined.

Lemma declared_without_system type d (info : gmap string json) l :
  Discover.parsed d = Some (JObj info) ->
  info !! "system" = None ->
  declared type d l = (Ok type, l ++ [Discover.ErrorNoSystem]).
Proof.
  intros Hparsed Hsys. unfold declared. rewrite Hparsed.
  unfold bind, lift, ret, Discover.log, contains.
  rewrite bool_decide_eq_false_2 by (intros [? ?]; congruence).
  reflexivity.
Qed.

Lemma place_string devices ip t bytes l :
  Socket.inet_pton ip = Ok bytes ->
  place devices ip (Some (JStr t)) l =
  (Ok (record devices (ip, t), Some (JStr t)), l).
Proof.
  intros Hip. unfold place, bind, lift, ret, lower, record, instance_of,
    family_of. cbn [fst snd].
  destruct (str_contains (lower_string t) "smartplug").
  - rewrite (init_plug _ _ Hip). reflexivity.
  - destruct (str_contains (lower_string t) "smartbulb").
    + rewrite (init_bulb _ _ Hip). reflexivity.
    + reflexivity.
Qed.

(** X20: a reply that parses to a dict without [system] is logged, and
    then classified all the same, with the type that the previous reply
    declared: its address is filed under the family of that other device.
    When no reply came before, the variable is unbound and the loop ends
    there with the exception logged. *)
Theorem reply_without_system_takes_the_previous_type
    devices t d (info : gmap string json) bytes rest l :
  Discover.parsed d = Some (JObj info) ->
  info !! "system" = None ->
  Socket.inet_pton (fst (Discover.addr d)) = Ok bytes ->
  Discover.receive (Discover.Received d :: rest) devices (Some (JStr t)) l =
    Discover.receive rest (record devices (fst (Discover.addr d), t))
      (Some (JStr t)) (l ++ [Discover.ErrorNoSystem]) /\
  Discover.receive (Discover.Received d :: rest) devices None l =
    (devices,
     l ++ [Discover.ErrorNoSystem;
           Discover.ErrorException (UnboundLocalError "type")]).
Proof.
  intros Hparsed Hsys Hip. split.
  - cbn [Discover.receive]. rewrite turn_split. unfold bind at 1.
    rewrite (declared_without_system _ _ _ _ Hparsed Hsys).
    rewrite (place_string _ _ _ _ _ Hip). reflexivity.
  - cbn [Discover.receive]. rewrite turn_split. unfold bind at 1.
    rewrite (declared_without_system _ _ _ _ Hparsed Hsys).
    unfold place, bind, lift. cbn [Discover.handler].
    rewrite <- app_assoc. reflexivity.
Qed.

Lemma reply_without_system_takes_the_previous_type_witness :
  let d :=
    {| Discover.parsed := Some (JObj {[ "error" := JStr "busy" ]});
       Discover.addr := ("192.168.1.9", 9999) |} in
  Socket.inet_pton "192.168.1.9" = Ok [192; 168; 1; 9] /\
  Discover.receive [Discover.Received d]
    {[ "192.168.1.105" := plug_at "192.168.1.105" ]}
    (Some (JStr "IOT.SMARTPLUGSWITCH")) [] =
  (<["192.168.1.9" := plug_at "192.168.1.9"]>
     {[ "192.168.1.105" := plug_at "192.168.1.105" ]},
   [Discover.ErrorNoSystem; Discover.DebugTimeout]).
Proof.
  intros d.
  assert (Hp : Discover.parsed d = Some (JObj {[ "error" := JStr "busy" ]}))
    by reflexivity.
  assert (Hs : ({[ "error" := JStr "busy" ]} : gmap string json) !! "system"
               = None) by reflexivity.
  assert (Hip : Socket.inet_pton (fst (Discover.addr d)) = Ok [192; 168; 1; 9])
    by reflexivity.
  split; [exact Hip|].
  etransitivity;
    [exact (proj1 (reply_without_system_takes_the_previous_type
                     {[ "192.168.1.105" := plug_at "192.168.1.105" ]}
                     "IOT.SMARTPLUGSWITCH" d _ _ [] [] Hp Hs Hip))|].
  vm_compute. reflexivity.
Defined.

(** ** The value of [hsv] on its way to the bulb *)

(** X21: on a colour bulb the setter of [hsv] sends hue and saturation as
    given, the value converted to the native brightness, and a colour
    temperature of 0, in one command after the capability query; when
    the value cannot be converted the query is all that was sent. *)
Theorem hsv_setter_sends_native_brightness self w (si : gmap string json) code
    hue saturation value rest :
  script w = inr (reply "system" "get_sysinfo" si) :: rest ->
  si !! "err_code" = Some code ->
  truth (SmartDevice.sys_info_get si "is_color") = true ->
  sent (snd (SmartBulb.set_hsv self (hue, saturation, value) w)) =
  match SmartBulb.scaled value 100 255 with
  | Ok brightness =>
      sent w ++
      [(ip_address self, sysinfo_request);
       (ip_address self,
        request SmartBulb.lightingservice "transition_light_state"
          (JObj (<["hue" := hue]>
                (<["saturation" := saturation]>
                (<["brightness" := JInt brightness]>
                (<["color_temp" := JInt 0]> ∅))))))]
  | Raise _ => sent w ++ [(ip_address self, sysinfo_request)]
  end.
Proof.
  intros Hw Hcode Hcolor. unfold SmartBulb.set_hsv, SmartBulb.is_color.
  unfold bind at 1.
  assert (Hne : "is_color" <> "err_code") by discriminate.
  rewrite (capability_reply self w _ _ _ _ Hne Hw Hcode), Hcolor.
  cbn [negb]. unfold bind at 1, lift.
  destruct (SmartBulb.scaled value 100 255) as [b|e]; [|reflexivity].
  rewrite snd_then_tt. unfold SmartBulb.set_light_state.
  rewrite query_helper_one_exchange. cbn [sent after].
  rewrite <- app_assoc. reflexivity.
Qed.

Lemma hsv_setter_sends_native_brightness_witness :
  let self := bulb_at "192.168.1.106" in
  let w := answers [reply "system" "get_sysinfo" color_bulb_sysinfo] in
  color_bulb_sysinfo !! "err_code" = Some (JInt 0) /\
  truth (SmartDevice.sys_info_get color_bulb_sysinfo "is_color") = true /\
  sent (snd (SmartBulb.set_hsv self (JInt 300, JInt 40, JInt 128) w)) =
    [("192.168.1.106", sysinfo_request);
     ("192.168.1.106",
      request SmartBulb.lightingservice "transition_light_state"
        (JObj (<["hue" := JInt 300]>
              (<["saturation" := JInt 40]>
              (<["brightness" := JInt 50]>
              (<["color_temp" := JInt 0]> ∅))))))] /\
  sent (snd (SmartBulb.set_hsv self (JInt 300, JInt 40, JNull) w)) =
    [("192.168.1.106", sysinfo_request)].
Proof.
  intros self w.
  assert (Hw : script w =
    inr (reply "system" "get_sysinfo" color_bulb_sysinfo) :: [])
    by reflexivity.
  assert (Hcode : color_bulb_sysinfo !! "err_code" = Some (JInt 0))
    by reflexivity.
  assert (Hcol :
    truth (SmartDevice.sys_info_get color_bulb_sysinfo "is_color") = true)
    by reflexivity.
  split; [exact Hcode|]. split; [exact Hcol|]. split.
  - etransitivity;
      [exact (hsv_setter_sends_native_brightness self w _ _ (JInt 300)
                (JInt 40) (JInt 128) _ Hw Hcode Hcol)|].
    vm_compute. reflexivity.
  - etransitivity;
      [exact (hsv_setter_sends_native_brightness self w _ _ (JInt 300)
                (JInt 40) JNull _ Hw Hcode Hcol)|].
    reflexivity.
Defined.

(** ** The feature flags of a plug *)

(** [sep.join(parts)]. *)
Fixpoint join (sep : ascii) (parts : list string) : string :=
  match parts with
  | [] => EmptyString
  | [p] => p
  | p :: rest => p ++ String sep (join sep rest)
  end.

Fixpoint free_of (sep : ascii) (s : string) : bool :=
  match s with
  | EmptyString => true
  | String c s' => negb (Ascii.eqb c sep) && free_of sep s'
  end.

Lemma split_on_nonempty sep s : split_on sep s <> [].
Proof.
  destruct s as [|c s]; cbn; [discriminate|].
  destruct (Ascii.eqb c sep); [discriminate|].
  destruct (split_on sep s); discriminate.
Qed.

Lemma split_on_free sep s :
  free_of sep s = true -> split_on sep s = [s].
Proof.
  induction s as [|c s IH]; [reflexivity|]. cbn [split_on free_of].
  destruct (Ascii.eqb c sep); [discriminate|]. cbn [negb andb]. intros H.
  rewrite (IH H). reflexivity.
Qed.

Lemma split_on_app sep s r :
  free_of sep s = true ->
  split_on sep (s ++ String sep r) = s :: split_on sep r.
Proof.
  induction s as [|c s IH].
  - intros _.
    change (split_on sep (String sep r) = EmptyString :: split_on sep r).
    cbn [split_on]. rewrite Ascii.eqb_refl. reflexivity.
  - change (free_of sep (String c s) = true ->
            split_on sep (String c (s ++ String sep r)) =
            String c s :: split_on sep r).
    cbn [split_on free_of].
    destruct (Ascii.eqb c sep); [discriminate|]. cbn [negb andb]. intros H.
    rewrite (IH H). reflexivity.
Qed.

(** Splitting undoes joining. *)
Lemma split_join sep parts :
  parts <> [] ->
  forallb (free_of sep) parts = true ->
  split_on sep (join sep parts) = parts.
Proof.
  induction parts as [|p parts IH]; [congruence|]. intros _ H.
  cbn [forallb] in H. apply andb_prop in H as [Hp Hparts].
  destruct parts as [|q parts].
  - cbn [join]. apply split_on_free, Hp.
  - change (join sep (p :: q :: parts))
      with (p +:+ String sep (join sep (q :: parts))).
    rewrite (split_on_app _ _ _ Hp), IH by (congruence || exact Hparts).
    reflexivity.
Qed.

(** X22: a plug whose [feature] field lists its features separated by
    colons has an energy meter exactly when [ENE] is one of the features
    listed: a longer name that contains [ENE] does not count. *)
Theorem plug_has_emeter_iff_feature_listed self w (si : gmap string json) code
    (features : list string) rest :
  cls self = Plug ->
  script w = inr (reply "system" "get_sysinfo" si) :: rest ->
  si !! "err_code" = Some code ->
  features <> [] ->
  forallb (free_of ":") features = true ->
  si !! "feature" = Some (JStr (join ":" features)) ->
  fst (has_emeter self w) = Ok (bool_decide ("ENE" ∈ features)).
Proof.
  intros Hcls Hw Hcode Hne Hfree Hfeature.
  unfold has_emeter. rewrite Hcls. unfold SmartPlug.has_emeter, bind.
  rewrite (sys_info_reply _ _ _ _ _ Hw Hcode).
  rewrite sys_info_get_delete by discriminate.
  unfold SmartDevice.sys_info_get. rewrite Hfeature.
  unfold lift, ret.
  change (default JNull (Some (JStr (join ":" features))))
    with (JStr (join ":" features)).
  cbn [split].
  rewrite (split_join _ _ Hne Hfree). cbn [fst].
  f_equal. unfold SmartDevice.FEATURE_ENERGY_METER.
  clear. induction features as [|f features IH].
  - reflexivity.
  - cbn [existsb]. rewrite IH.
    destruct (String.eqb_spec "ENE" f) as [<-|Hf].
    + rewrite (bool_decide_eq_true_2 ("ENE" ∈ "ENE" :: features)) by left.
      reflexivity.
    + cbn [orb]. apply bool_decide_ext. rewrite elem_of_cons. tauto.
Qed.

Lemma plug_has_emeter_iff_feature_listed_witness :
  let self := plug_at "192.168.1.105" in
  let si : gmap string json :=
    <["err_code" := JInt 0]> {[ "feature" := JStr "TIM:ENERGY" ]} in
  let w := answers [reply "system" "get_sysinfo" si] in
  si !! "feature" = Some (JStr (join ":" ["TIM"; "ENERGY"])) /\
  fst (has_emeter self w) = Ok false.
Proof.
  intros self si w.
  assert (Hcls : cls self = Plug) by reflexivity.
  assert (Hw : script w = inr (reply "system" "get_sysinfo" si) :: [])
    by reflexivity.
  assert (Hcode : si !! "err_code" = Some (JInt 0)) by reflexivity.
  assert (Hne : ["TIM"; "ENERGY"] <> ([] : list string)) by discriminate.
  assert (Hfree : forallb (free_of ":") ["TIM"; "ENERGY"] = true)
    by reflexivity.
  assert (Hfeature : si !! "feature" = Some (JStr (join ":" ["TIM"; "ENERGY"])))
    by reflexivity.
  split; [exact Hfeature|].
  etransitivity;
    [exact (plug_has_emeter_iff_feature_listed self w si _ _ _
              Hcls Hw Hcode Hne Hfree Hfeature)|].
  vm_compute. reflexivity.
Defined.

(** Beyond [2^53] the quotient of the exact integers is rounded once: the
    value 903269621787359 is sent as the brightness 354223381093081, and
    a value of [3 * 10^308], whose product with 100 is beyond the range of
    a double, is converted and sent all the same. *)
Example hsv_setter_large_values :
  SmartBulb.scaled (JInt 903269621787359) 100 255 = Ok 354223381093081 /\
  SmartBulb.scaled (JInt (10 ^ 16)) 255 100 = Ok 25500000000000000 /\
  (exists brightness,
     SmartBulb.scaled (JInt (3 * 10 ^ 308)) 100 255 = Ok brightness /\
     length
       (sent (snd (SmartBulb.set_hsv (bulb_at "192.168.1.106")
                     (JInt 0, JInt 0, JInt (3 * 10 ^ 308))
                     (answers [reply "system" "get_sysinfo"
                                 color_bulb_sysinfo])))) = 2%nat).
Proof.
  split; [vm_compute; reflexivity|]. split; [vm_compute; reflexivity|].
  eexists. split; vm_compute; reflexivity.
Qed.
